(** * MongooseQueue: the lease/claim protocol of a Mongoose-backed job queue

    A shallow embedding of the two variants of the [MongooseQueue] class:

    - [MongooseQueue]        : src/lib/mongoose-queue.js, admission by lease
                               window, [clean] keeps exhausted jobs;
    - [MongooseQueueProcess] : the variant with the explicit [process] flag,
                               [clean] drops exhausted jobs, and
                               [recoverProcessTasks].

    The collection behind the Mongoose model is a list of documents in
    insertion order.  Every method calls its callback exactly once, so a
    method is a function from the collection to the pair of what the
    callback receives and the collection afterwards.  What the outside world
    contributes during a call is an argument of the method: the successive
    readings of [Date.now()], and for every store call whether it fails.
    One caller at a time: interleavings of several workers are out of the
    model. *)

From Stdlib Require Import ZArith List String Bool Lia.
Import ListNotations.
Open Scope Z_scope.

(** ** Documents *)

Definition JobId := string.
Bind Scope string_scope with JobId.

(** A document of the queue collection, with the fields the methods read
    and write.  Dates are milliseconds since the epoch, as [Date.now()]
    gives them; [process] is used by the flag variant only. *)
Record Job := {
  _id : JobId;
  payload : string;
  createdAt : Z;
  blockedUntil : Z;
  retries : Z;
  done : bool;
  error : option string;
  workerId : string;
  workerHostname : string;
  process : bool
}.

Definition Collection := list Job.

(** ** What a callback receives *)

Inductive QueueError :=
| PayloadMissing                 (* Error('Payload missing.') *)
| TooManyJobs (maxJobs : Z)      (* Error("Too jobs in process status, only N is allowed. ...") *)
| JobNotFound                    (* Error('Job id invalid, job not found.') *)
| StoreError (e : string).       (* the err of a store call, handed on as it is *)

(** The object literals the callbacks of [get], [ack] and [error] build. *)
Record JobView := {
  id : JobId;
  view_payload : string;
  view_blockedUntil : Z;
  view_done : bool
}.

(** The raw response of [Model.update]: counts, no documents. *)
Record WriteResult := {
  ok : Z;
  n : Z;
  nModified : Z
}.

Inductive Value :=
| VUndefined
| VNull
| VNumber (k : Z)
| VString (s : string)
| VJob (v : JobView)
| VFailedJob (v : JobView) (e : option string)
| VRaw (r : WriteResult)
| VDocs (l : list Job).

Inductive Result :=
| Err (e : QueueError)
| Ok (v : Value).

(** ** The store *)

(** What a failing store call passes as second argument of the callback:
    nothing at all ([callback(err)]) or [null] ([callback(err, null)]). *)
Inductive Absent := Undefined | Null.

Record Fault := {
  fault_err : string;
  fault_arg : Absent
}.

Inductive Reply (A : Type) :=
| Answer (a : A)
| Failure (f : Fault).

Arguments Answer {A} a.
Arguments Failure {A} f.

Module Store.

(** A store call under an optional fault: a failing call leaves the
    collection as it was. *)
Definition call {A : Type} (fault : option Fault)
    (op : Collection -> A * Collection) (c : Collection)
    : Reply A * Collection :=
  match fault with
  | Some f => (Failure f, c)
  | None => let (a, c') := op c in (Answer a, c')
  end.

(** [Model.count(conditions)] *)
Definition count (cond : Job -> bool) (c : Collection) : Z * Collection :=
  (Z.of_nat (List.length (filter cond c)), c).

(** Position and content of the first matching document in natural
    (insertion) order. *)
Fixpoint find_first (cond : Job -> bool) (c : Collection) : option (nat * Job) :=
  match c with
  | [] => None
  | j :: c' =>
      if cond j then Some (O, j)
      else match find_first cond c' with
           | Some (k, j') => Some (S k, j')
           | None => None
           end
  end.

(** Position and content of the matching document that comes first under
    [sort: {createdAt: 1}]; among equal dates the earlier inserted one. *)
Fixpoint find_oldest (cond : Job -> bool) (c : Collection) : option (nat * Job) :=
  match c with
  | [] => None
  | j :: c' =>
      let rest := match find_oldest cond c' with
                  | Some (k, j') => Some (S k, j')
                  | None => None
                  end in
      if cond j then
        match rest with
        | Some (k, j') =>
            if createdAt j' <? createdAt j then Some (k, j') else Some (O, j)
        | None => Some (O, j)
        end
      else rest
  end.

Fixpoint replace_at (k : nat) (x : Job) (c : Collection) : Collection :=
  match c, k with
  | [], _ => []
  | _ :: c', O => x :: c'
  | y :: c', S k' => y :: replace_at k' x c'
  end.

Inductive Sort := Natural | CreatedAtAsc.

(** [Model.findOneAndUpdate(conditions, update, {new: true, sort})]:
    the document after the update, or none. *)
Definition findOneAndUpdate (cond : Job -> bool) (upd : Job -> Job)
    (s : Sort) (c : Collection) : option Job * Collection :=
  match (match s with
         | Natural => find_first cond c
         | CreatedAtAsc => find_oldest cond c
         end) with
  | Some (k, j) => (Some (upd j), replace_at k (upd j) c)
  | None => (None, c)
  end.

(** [Model.remove(conditions)] *)
Definition remove (cond : Job -> bool) (c : Collection) : unit * Collection :=
  (tt, filter (fun j => negb (cond j)) c).

(** [Model.update(conditions, update, {multi: true})]: every matching
    document is updated; the answer is the raw write result. *)
Definition update (cond : Job -> bool) (upd : Job -> Job) (c : Collection)
    : WriteResult * Collection :=
  let k := Z.of_nat (List.length (filter cond c)) in
  ({| ok := 1; n := k; nModified := k |},
   map (fun j => if cond j then upd j else j) c).

(** [document.save()] of a new document. *)
Definition save (j : Job) (c : Collection) : Job * Collection :=
  (j, c ++ [j]).

End Store.

(** ** The queue object *)

Record Options := {
  queueCollection : string;
  blockDuration : Z;
  maxRetries : Z;
  maxJobsInProcess : Z
}.

(** [this] of a method: [this.workerHostname], [this.workerId],
    [this.options]. *)
Record Queue := {
  this_workerHostname : string;
  this_workerId : string;
  options : Options
}.

Definition defaults : Options :=
  {| queueCollection := "queue";
     blockDuration := 30000;
     maxRetries := 5;
     maxJobsInProcess := 1 |}.

(** Modelled from the spec: the defaults of the job schema
    (schemas/job-schema is not among the sources).  A new job has
    [createdAt = now], [retries = 0], [done = false] and a [blockedUntil]
    that is not in the future; [oid] is the fresh [_id] and [blocked] the
    default of [blockedUntil]. *)
Definition new_job (oid : JobId) (now blocked : Z) (p : string) : Job :=
  {| _id := oid;
     payload := p;
     createdAt := now;
     blockedUntil := blocked;
     retries := 0;
     done := false;
     error := None;
     workerId := "";
     workerHostname := "";
     process := false |}.

(** [tasksInProcess < maxJobs] on what the callback of [count] received;
    [undefined < k] is false and [null < k] is [0 < k]. *)
Definition tasks_below (r : Reply Z) (maxJobs : Z) : bool :=
  match r with
  | Answer k => k <? maxJobs
  | Failure f =>
      match fault_arg f with
      | Undefined => false
      | Null => 0 <? maxJobs
      end
  end.

Definition view (j : Job) : JobView :=
  {| id := _id j;
     view_payload := payload j;
     view_blockedUntil := blockedUntil j;
     view_done := done j |}.

(** The [$set] / [$inc] documents of the methods. *)
Definition set_done (j : Job) : Job :=
  {| _id := _id j;
     payload := payload j;
     createdAt := createdAt j;
     blockedUntil := blockedUntil j;
     retries := retries j;
     done := true;
     error := error j;
     workerId := workerId j;
     workerHostname := workerHostname j;
     process := process j |}.

Definition set_done_error (msg : string) (j : Job) : Job :=
  {| _id := _id j;
     payload := payload j;
     createdAt := createdAt j;
     blockedUntil := blockedUntil j;
     retries := retries j;
     done := true;
     error := Some msg;
     workerId := workerId j;
     workerHostname := workerHostname j;
     process := process j |}.

(** [$set: {blockedUntil, workerId, workerHostname}, $inc: {retries: 1}],
    with [process] set to [flag] when the update names it. *)
Definition lease (q : Queue) (now : Z) (flag : option bool) (j : Job) : Job :=
  {| _id := _id j;
     payload := payload j;
     createdAt := createdAt j;
     blockedUntil := now + blockDuration (options q);
     retries := retries j + 1;
     done := done j;
     error := error j;
     workerId := this_workerId q;
     workerHostname := this_workerHostname q;
     process := match flag with Some b => b | None => process j end |}.

(** The methods the two files share word for word. *)
Module Common.

(** [add(payload, cb)]; [None] is a missing (falsy) payload. *)
Definition add (oid : JobId) (now blocked : Z) (p : option string)
    (fault : option Fault) (c : Collection) : Result * Collection :=
  match p with
  | None => (Err PayloadMissing, c)
  | Some doc =>
      match Store.call fault (Store.save (new_job oid now blocked doc)) c with
      | (Failure f, c') => (Err (StoreError (fault_err f)), c')
      | (Answer job, c') => (Ok (VString (_id job)), c')
      end
  end.

(** [ack(jobId, cb)] *)
Definition ack (jobId : JobId) (fault : option Fault) (c : Collection)
    : Result * Collection :=
  match Store.call fault
          (Store.findOneAndUpdate (fun j => String.eqb (_id j) jobId)
             set_done Store.Natural) c with
  | (Failure f, c') => (Err (StoreError (fault_err f)), c')
  | (Answer None, c') => (Err JobNotFound, c')
  | (Answer (Some job), c') => (Ok (VJob (view job)), c')
  end.

(** [error(jobId, error, cb)] *)
Definition error (jobId : JobId) (msg : string) (fault : option Fault)
    (c : Collection) : Result * Collection :=
  match Store.call fault
          (Store.findOneAndUpdate (fun j => String.eqb (_id j) jobId)
             (set_done_error msg) Store.Natural) c with
  | (Failure f, c') => (Err (StoreError (fault_err f)), c')
  | (Answer None, c') => (Err JobNotFound, c')
  | (Answer (Some job), c') => (Ok (VFailedJob (view job) (error job)), c')
  end.

(** [reset(cb)] *)
Definition reset (fault : option Fault) (c : Collection) : Result * Collection :=
  match Store.call fault (Store.remove (fun _ => true)) c with
  | (Failure f, c') => (Err (StoreError (fault_err f)), c')
  | (Answer _, c') => (Ok VUndefined, c')
  end.

End Common.


(** The conditions of the queries. *)

(** [{blockedUntil: {$lt: now}, retries: {$lte: maxRetries}, done: false}] *)
Definition claimable (q : Queue) (now : Z) (j : Job) : bool :=
  (blockedUntil j <? now) && (retries j <=? maxRetries (options q))
  && negb (done j).

(** [{blockedUntil: {$gt: now}, retries: {$lte: maxRetries}, done: false}] *)
Definition leased (q : Queue) (now : Z) (j : Job) : bool :=
  (now <? blockedUntil j) && (retries j <=? maxRetries (options q))
  && negb (done j).

(** ** src/lib/mongoose-queue.js *)
Module MongooseQueue.

Definition add := Common.add.

(** [availableProcesses(cb)] *)
Definition availableProcesses (q : Queue) (now : Z) (fault : option Fault)
    (c : Collection) : Result * Collection :=
  match Store.call fault (Store.count (claimable q now)) c with
  | (Failure f, c') => (Err (StoreError (fault_err f)), c')
  | (Answer number, c') =>
      if number =? 0 then (Ok VNull, c') else (Ok (VNumber number), c')
  end.

(** [get(cb)]; [t_count], [t_find] and [t_set] are the three readings of
    [Date.now()] in the order the method takes them, [f_count] and [f_find]
    the faults of its two store calls. *)
Definition get (q : Queue) (t_count t_find t_set : Z)
    (f_count f_find : option Fault) (c : Collection) : Result * Collection :=
  let maxJobs := maxJobsInProcess (options q) in
  let (tasksInProcess, c1) :=
    Store.call f_count (Store.count (leased q t_count)) c in
  if tasks_below tasksInProcess maxJobs then
    match Store.call f_find
            (Store.findOneAndUpdate (claimable q t_find)
               (lease q t_set None) Store.CreatedAtAsc) c1 with
    | (Failure f, c2) => (Err (StoreError (fault_err f)), c2)
    | (Answer None, c2) => (Ok VNull, c2)
    | (Answer (Some job), c2) => (Ok (VJob (view job)), c2)
    end
  else (Err (TooManyJobs maxJobs), c1).

Definition ack := Common.ack.

Definition error := Common.error.

(** [clean(cb)]: only [{done: true}]; the clause on [retries] is commented
    out in the source. *)
Definition clean (fault : option Fault) (c : Collection)
    : Result * Collection :=
  match Store.call fault (Store.remove (fun j => done j)) c with
  | (Failure f, c') => (Err (StoreError (fault_err f)), c')
  | (Answer _, c') => (Ok VUndefined, c')
  end.

Definition reset := Common.reset.

End MongooseQueue.

(** ** The variant with the [process] flag *)
Module MongooseQueueProcess.

Definition add := Common.add.

(** [get(cb)]; the count takes no reading of the clock here. *)
Definition get (q : Queue) (t_find t_set : Z)
    (f_count f_find : option Fault) (c : Collection) : Result * Collection :=
  let maxJobs := maxJobsInProcess (options q) in
  let (tasksInProcess, c1) :=
    Store.call f_count (Store.count (fun j => process j)) c in
  if tasks_below tasksInProcess maxJobs then
    match Store.call f_find
            (Store.findOneAndUpdate
               (fun j => claimable q t_find j && negb (process j))
               (lease q t_set (Some true)) Store.CreatedAtAsc) c1 with
    | (Failure f, c2) => (Err (StoreError (fault_err f)), c2)
    | (Answer None, c2) => (Ok VNull, c2)
    | (Answer (Some job), c2) => (Ok (VJob (view job)), c2)
    end
  else (Err (TooManyJobs maxJobs), c1).

Definition ack := Common.ack.

Definition error := Common.error.

(** [clean(cb)]: [{$or: [{done: true}, {retries: {$gt: maxRetries}}]}] *)
Definition clean (q : Queue) (fault : option Fault) (c : Collection)
    : Result * Collection :=
  match Store.call fault
          (Store.remove
             (fun j => done j || (maxRetries (options q) <? retries j))) c with
  | (Failure f, c') => (Err (StoreError (fault_err f)), c')
  | (Answer _, c') => (Ok VUndefined, c')
  end.

Definition reset := Common.reset.

(** [recoverProcessTasks(cb)]; the raw write result is an object, hence
    never falsy. *)
Definition recoverProcessTasks (q : Queue) (now : Z) (fault : option Fault)
    (c : Collection) : Result * Collection :=
  match Store.call fault
          (Store.update (fun j => negb (done j) && process j)
             (lease q now (Some false))) c with
  | (Failure f, c') => (Err (StoreError (fault_err f)), c')
  | (Answer result, c') => (Ok (VRaw result), c')
  end.

End MongooseQueueProcess.

(** ** The constructor *)

(** The [options] argument of the constructor; a property that is not given
    ([undefined]) is [None]. *)
Record GivenOptions := {
  given_queueCollection : option string;
  given_blockDuration : option Z;
  given_maxRetries : option Z;
  given_maxJobsInProcess : option Z
}.

(** [options = {}] *)
Definition no_options : GivenOptions :=
  {| given_queueCollection := None;
     given_blockDuration := None;
     given_maxRetries := None;
     given_maxJobsInProcess := None |}.

(** [_.defaults(options, {queueCollection: 'queue', blockDuration: 30000,
    maxRetries: 5, maxJobsInProcess: 1})]: a property that is undefined
    takes the default, a given one is kept. *)
Definition with_defaults (o : GivenOptions) : Options :=
  {| queueCollection :=
       match given_queueCollection o with
       | Some s => s
       | None => queueCollection defaults
       end;
     blockDuration :=
       match given_blockDuration o with
       | Some d => d
       | None => blockDuration defaults
       end;
     maxRetries :=
       match given_maxRetries o with
       | Some m => m
       | None => maxRetries defaults
       end;
     maxJobsInProcess :=
       match given_maxJobsInProcess o with
       | Some m => m
       | None => maxJobsInProcess defaults
       end |}.

(** [constructor(payloadModel, workerId = '', options = {})];
    [hostname] is what [os.hostname()] answers.  The payload model only
    shapes the schema of the collection and is left out. *)
Definition constructor (hostname : string) (workerId : option string)
    (o : option GivenOptions) : Queue :=
  {| this_workerHostname := hostname;
     this_workerId := match workerId with Some w => w | None => "" end;
     options := with_defaults
                  (match o with Some g => g | None => no_options end) |}.

(** ** Sequences of calls on one queue object *)

(** The calls of a client of src/lib/mongoose-queue.js, each with what the
    clock, the id generator and the store contribute to it. *)
Module LeaseClient.

Inductive Call :=
| Add (oid : JobId) (now blocked : Z) (p : option string) (f : option Fault)
| AvailableProcesses (now : Z) (f : option Fault)
| Get (t1 t2 t3 : Z) (f1 f2 : option Fault)
| Ack (jobId : JobId) (f : option Fault)
| Error (jobId : JobId) (msg : string) (f : option Fault)
| Clean (f : option Fault)
| Reset (f : option Fault).

Definition call (q : Queue) (x : Call) (c : Collection) : Result * Collection :=
  match x with
  | Add oid now blocked p f => MongooseQueue.add oid now blocked p f c
  | AvailableProcesses now f => MongooseQueue.availableProcesses q now f c
  | Get t1 t2 t3 f1 f2 => MongooseQueue.get q t1 t2 t3 f1 f2 c
  | Ack jobId f => MongooseQueue.ack jobId f c
  | Error jobId msg f => MongooseQueue.error jobId msg f c
  | Clean f => MongooseQueue.clean f c
  | Reset f => MongooseQueue.reset f c
  end.

(** The collection after the calls, one after the other. *)
Fixpoint calls (q : Queue) (xs : list Call) (c : Collection) : Collection :=
  match xs with
  | [] => c
  | x :: xs' => calls q xs' (snd (call q x c))
  end.

End LeaseClient.

(** The same for the variant with the [process] flag. *)
Module FlagClient.

Inductive Call :=
| Add (oid : JobId) (now blocked : Z) (p : option string) (f : option Fault)
| Get (t2 t3 : Z) (f1 f2 : option Fault)
| Ack (jobId : JobId) (f : option Fault)
| Error (jobId : JobId) (msg : string) (f : option Fault)
| Clean (f : option Fault)
| Reset (f : option Fault)
| RecoverProcessTasks (now : Z) (f : option Fault).

Definition call (q : Queue) (x : Call) (c : Collection) : Result * Collection :=
  match x with
  | Add oid now blocked p f => MongooseQueueProcess.add oid now blocked p f c
  | Get t2 t3 f1 f2 => MongooseQueueProcess.get q t2 t3 f1 f2 c
  | Ack jobId f => MongooseQueueProcess.ack jobId f c
  | Error jobId msg f => MongooseQueueProcess.error jobId msg f c
  | Clean f => MongooseQueueProcess.clean q f c
  | Reset f => MongooseQueueProcess.reset f c
  | RecoverProcessTasks now f =>
      MongooseQueueProcess.recoverProcessTasks q now f c
  end.

Fixpoint calls (q : Queue) (xs : list Call) (c : Collection) : Collection :=
  match xs with
  | [] => c
  | x :: xs' => calls q xs' (snd (call q x c))
  end.

End FlagClient.

(** ** Sample queues and jobs *)

Definition worker : Queue :=
  {| this_workerHostname := "host-a";
     this_workerId := "w1";
     options := defaults |}.

(** A job as [add] leaves it. *)
Definition pending (oid : JobId) (created : Z) : Job :=
  new_job oid created created "doc".

(** [J1] was enqueued before [J2]. *)
Definition two_pending : Collection :=
  [pending "J2" 20; pending "J1" 10].

(** A job on its last permitted claim: [retries] is past [maxRetries = 5]
    while the lease still runs. *)
Definition on_last_lease : Job :=
  {| _id := "J0"; payload := "doc"; createdAt := 5;
     blockedUntil := 50000; retries := 6; done := false;
     error := None; workerId := "w2"; workerHostname := "host-b";
     process := false |}.

(** A finished job, and a job out of retries that is not finished. *)
Definition finished : Job := set_done (pending "J3" 30).

Definition exhausted : Job :=
  {| _id := "J4"; payload := "doc"; createdAt := 40;
     blockedUntil := 900; retries := 6; done := false;
     error := None; workerId := "w1"; workerHostname := "host-a";
     process := false |}.

(** A job that a worker claimed at 1000 in the flag variant. *)
Definition in_process : Job := lease worker 1000 (Some true) (pending "J1" 10).

(** A queue that allows two jobs in process, and one that allows no second
    claim of a job. *)
Definition roomy : Queue :=
  {| this_workerHostname := "host-a";
     this_workerId := "w1";
     options := {| queueCollection := "queue"; blockDuration := 30000;
                   maxRetries := 5; maxJobsInProcess := 2 |} |}.

Definition strict : Queue :=
  {| this_workerHostname := "host-a";
     this_workerId := "w1";
     options := {| queueCollection := "queue"; blockDuration := 30000;
                   maxRetries := 0; maxJobsInProcess := 1 |} |}.

(** The job [J1] after a claim at 1000: leased until 31000. *)
Definition held : Job := lease worker 1000 None (pending "J1" 10).

(** * Properties *)

(** ** The store primitives *)

Section StoreFacts.

Variable cond : Job -> bool.

Lemma replace_at_length (k : nat) (x : Job) (c : Collection) :
  List.length (Store.replace_at k x c) = List.length c.
Proof.
  revert k; induction c as [|y c IH]; intros [|k]; simpl; auto.
Qed.

Lemma replace_at_same (k : nat) (x : Job) (c : Collection) :
  (k < List.length c)%nat -> nth_error (Store.replace_at k x c) k = Some x.
Proof.
  revert k; induction c as [|y c IH]; intros [|k] Hk; simpl in *;
    try lia; auto.
  apply IH; lia.
Qed.

Lemma replace_at_other (k i : nat) (x : Job) (c : Collection) :
  i <> k -> nth_error (Store.replace_at k x c) i = nth_error c i.
Proof.
  revert k i; induction c as [|y c IH]; intros [|k] [|i] Hne; simpl;
    try congruence; auto.
Qed.

Lemma replace_at_id (k : nat) (j : Job) (c : Collection) :
  nth_error c k = Some j -> Store.replace_at k j c = c.
Proof.
  revert k; induction c as [|y c IH]; intros [|k] H; simpl in *;
    try discriminate.
  - congruence.
  - f_equal; auto.
Qed.

Lemma find_first_some (c : Collection) (k : nat) (j : Job) :
  Store.find_first cond c = Some (k, j) ->
  nth_error c k = Some j /\ cond j = true /\
  forall i j', (i < k)%nat -> nth_error c i = Some j' -> cond j' = false.
Proof.
  revert k; induction c as [|y c IH]; intros k H; simpl in H.
  - discriminate.
  - destruct (cond y) eqn:Hy.
    + inversion H; subst; simpl.
      repeat split; auto; intros; lia.
    + destruct (Store.find_first cond c) as [[k' j']|] eqn:Hf;
        inversion H; subst.
      destruct (IH _ eq_refl) as (Hn & Hc & Hlt).
      repeat split; auto.
      intros [|i] j0 Hi Hnth; simpl in Hnth.
      * congruence.
      * eapply Hlt; eauto; lia.
Qed.

Lemma find_first_none (c : Collection) :
  Store.find_first cond c = None <-> forall j, In j c -> cond j = false.
Proof.
  induction c as [|y c IH]; simpl.
  - split; auto; intros _ j [].
  - destruct (cond y) eqn:Hy.
    + split; [discriminate|].
      intros H; specialize (H y (or_introl eq_refl)); congruence.
    + destruct (Store.find_first cond c) as [[k' j']|].
      * split; [discriminate|].
        intros H. destruct IH as [_ IH].
        discriminate IH. intros; apply H; auto.
      * split; auto. intros _ j [<-|Hin]; auto.
        apply IH; auto.
Qed.

Lemma find_oldest_some (c : Collection) (k : nat) (j : Job) :
  Store.find_oldest cond c = Some (k, j) ->
  nth_error c k = Some j /\ cond j = true /\
  forall j', In j' c -> cond j' = true -> createdAt j <= createdAt j'.
Proof.
  revert k j; induction c as [|y c IH]; intros k j H; simpl in H.
  - discriminate.
  - destruct (Store.find_oldest cond c) as [[k' j']|] eqn:Hf.
    + destruct (IH _ _ eq_refl) as (Hn & Hc & Hmin).
      destruct (cond y) eqn:Hy.
      * destruct (createdAt j' <? createdAt y) eqn:Hlt;
          inversion H; subst; simpl.
        -- apply Z.ltb_lt in Hlt.
           repeat split; auto.
           intros j0 [<-|Hin] Hj0; [lia | auto].
        -- apply Z.ltb_ge in Hlt.
           repeat split; auto.
           intros j0 [<-|Hin] Hj0; [lia|].
           specialize (Hmin _ Hin Hj0); lia.
      * inversion H; subst; simpl.
        repeat split; auto.
        intros j0 [<-|Hin] Hj0; [congruence | auto].
    + destruct (cond y) eqn:Hy; inversion H; subst; simpl.
      repeat split; auto.
      intros j0 [<-|Hin] Hj0; [lia|].
      exfalso.
      assert (Hnone : forall j1, In j1 c -> cond j1 = false).
      { clear - Hf. induction c as [|z c IHc]; simpl in *; [intros ? []|].
        destruct (Store.find_oldest cond c) as [[k1 j1]|].
        - destruct (cond z); [destruct (createdAt j1 <? createdAt z)|];
            discriminate.
        - destruct (cond z) eqn:Hz; [discriminate|].
          intros j1 [<-|Hin1]; auto. }
      rewrite (Hnone _ Hin) in Hj0; discriminate.
Qed.

Lemma find_oldest_none (c : Collection) :
  Store.find_oldest cond c = None <-> forall j, In j c -> cond j = false.
Proof.
  induction c as [|y c IH]; simpl.
  - split; auto; intros _ j [].
  - destruct (Store.find_oldest cond c) as [[k1 j1]|].
    + split.
      * destruct (cond y); [destruct (createdAt j1 <? createdAt y)|];
          discriminate.
      * intros H. destruct IH as [_ IH].
        discriminate IH. intros; apply H; auto.
    + destruct (cond y) eqn:Hy.
      * split; [discriminate|].
        intros H; specialize (H y (or_introl eq_refl)); congruence.
      * split; auto. intros _ j [<-|Hin]; auto.
        apply IH; auto.
Qed.

End StoreFacts.

(** ** The conditions, as propositions *)

Lemma claimable_iff (q : Queue) (now : Z) (j : Job) :
  claimable q now j = true <->
  blockedUntil j < now /\ retries j <= maxRetries (options q) /\ done j = false.
Proof.
  unfold claimable.
  rewrite !andb_true_iff, Z.ltb_lt, Z.leb_le, negb_true_iff; tauto.
Qed.

Lemma leased_iff (q : Queue) (now : Z) (j : Job) :
  leased q now j = true <->
  now < blockedUntil j /\ retries j <= maxRetries (options q) /\ done j = false.
Proof.
  unfold leased.
  rewrite !andb_true_iff, Z.ltb_lt, Z.leb_le, negb_true_iff; tauto.
Qed.

(** ** One atomic claim *)

Lemma claim_step (cond : Job -> bool) (upd : Job -> Job) (c : Collection) :
  ((forall j, In j c -> cond j = false) /\
   Store.findOneAndUpdate cond upd Store.CreatedAtAsc c = (None, c))
  \/
  (exists k j,
     nth_error c k = Some j /\ cond j = true /\
     (forall o, In o c -> cond o = true -> createdAt j <= createdAt o) /\
     Store.findOneAndUpdate cond upd Store.CreatedAtAsc c
       = (Some (upd j), Store.replace_at k (upd j) c)).
Proof.
  unfold Store.findOneAndUpdate.
  destruct (Store.find_oldest cond c) as [[k j]|] eqn:Hf.
  - right. exists k, j.
    destruct (find_oldest_some _ _ _ _ Hf) as (Hn & Hc & Hmin); auto.
  - left. split; auto. apply find_oldest_none; auto.
Qed.

(** The three ways a [get] without store faults can end. *)
Lemma lease_get_cases (q : Queue) (t1 t2 t3 : Z) (c : Collection) :
  let tasks := Z.of_nat (List.length (filter (leased q t1) c)) in
  let maxJobs := maxJobsInProcess (options q) in
  (maxJobs <= tasks /\
   MongooseQueue.get q t1 t2 t3 None None c = (Err (TooManyJobs maxJobs), c))
  \/
  (tasks < maxJobs /\
   (forall j, In j c -> claimable q t2 j = false) /\
   MongooseQueue.get q t1 t2 t3 None None c = (Ok VNull, c))
  \/
  (tasks < maxJobs /\
   exists k j,
     nth_error c k = Some j /\ claimable q t2 j = true /\
     (forall o, In o c -> claimable q t2 o = true ->
                createdAt j <= createdAt o) /\
     MongooseQueue.get q t1 t2 t3 None None c
       = (Ok (VJob (view (lease q t3 None j))),
          Store.replace_at k (lease q t3 None j) c)).
Proof.
  intros tasks maxJobs.
  unfold MongooseQueue.get; simpl.
  fold tasks maxJobs.
  destruct (tasks <? maxJobs) eqn:Hadm.
  - apply Z.ltb_lt in Hadm. right.
    destruct (claim_step (claimable q t2) (lease q t3 None) c)
      as [(Hnone & ->)|(k & j & Hn & Hc & Hmin & ->)].
    + left; auto.
    + right; split; auto. exists k, j; auto.
  - apply Z.ltb_ge in Hadm. left; auto.
Qed.

Lemma flag_get_cases (q : Queue) (t2 t3 : Z) (c : Collection) :
  let tasks := Z.of_nat (List.length (filter (fun j => process j) c)) in
  let maxJobs := maxJobsInProcess (options q) in
  let cond := fun j => claimable q t2 j && negb (process j) in
  (maxJobs <= tasks /\
   MongooseQueueProcess.get q t2 t3 None None c
     = (Err (TooManyJobs maxJobs), c))
  \/
  (tasks < maxJobs /\
   (forall j, In j c -> cond j = false) /\
   MongooseQueueProcess.get q t2 t3 None None c = (Ok VNull, c))
  \/
  (tasks < maxJobs /\
   exists k j,
     nth_error c k = Some j /\ cond j = true /\
     (forall o, In o c -> cond o = true -> createdAt j <= createdAt o) /\
     MongooseQueueProcess.get q t2 t3 None None c
       = (Ok (VJob (view (lease q t3 (Some true) j))),
          Store.replace_at k (lease q t3 (Some true) j) c)).
Proof.
  intros tasks maxJobs cond.
  unfold MongooseQueueProcess.get; simpl.
  fold tasks maxJobs cond.
  destruct (tasks <? maxJobs) eqn:Hadm.
  - apply Z.ltb_lt in Hadm. right.
    destruct (claim_step cond (lease q t3 (Some true)) c)
      as [(Hnone & ->)|(k & j & Hn & Hc & Hmin & ->)].
    + left; auto.
    + right; split; auto. exists k, j; auto.
  - apply Z.ltb_ge in Hadm. left; auto.
Qed.

(** ** The claim of [get] *)

(** C1: without store faults, a [get] that the admission check lets
    through hands out a job whenever some document satisfies
    [blockedUntil < now], [retries <= maxRetries] and [done = false] (and
    [process = false] in the flag variant).  A [get] that hands out a job
    has picked one such document, no matching document is older by
    [createdAt]; exactly that document is rewritten, with
    [blockedUntil = now + blockDuration], the identity of the worker,
    [retries + 1] (and [process = true] in the flag variant), and the view
    handed out is the one of the rewritten document.  When no document
    matches, the collection is left as it is and the answer is [null]
    whenever the admission check lets the call through.  [now] is the
    reading of the clock at the query ([t2]) and at the update ([t3]). *)
Theorem get_claims_oldest_match :
  (forall q t1 t2 t3 c r c',
     MongooseQueue.get q t1 t2 t3 None None c = (r, c') ->
     (Z.of_nat (List.length (filter (leased q t1) c))
        < maxJobsInProcess (options q) ->
      (exists o, In o c /\ blockedUntil o < t2 /\
                 retries o <= maxRetries (options q) /\ done o = false) ->
      exists v, r = Ok (VJob v)) /\
     (forall v, r = Ok (VJob v) ->
        exists k j j',
          nth_error c k = Some j /\
          (blockedUntil j < t2 /\ retries j <= maxRetries (options q) /\
           done j = false) /\
          (forall o, In o c ->
             blockedUntil o < t2 -> retries o <= maxRetries (options q) ->
             done o = false -> createdAt j <= createdAt o) /\
          j' = {| _id := _id j; payload := payload j;
                  createdAt := createdAt j;
                  blockedUntil := t3 + blockDuration (options q);
                  retries := retries j + 1;
                  done := done j; error := error j;
                  workerId := this_workerId q;
                  workerHostname := this_workerHostname q;
                  process := process j |} /\
          nth_error c' k = Some j' /\
          (forall i, i <> k -> nth_error c' i = nth_error c i) /\
          List.length c' = List.length c /\
          v = {| id := _id j'; view_payload := payload j';
                 view_blockedUntil := blockedUntil j';
                 view_done := done j' |}) /\
     ((forall o, In o c ->
         ~ (blockedUntil o < t2 /\ retries o <= maxRetries (options q) /\
            done o = false)) ->
      c' = c /\
      (Z.of_nat (List.length (filter (leased q t1) c))
         < maxJobsInProcess (options q) -> r = Ok VNull)))
  /\
  (forall q t2 t3 c r c',
     MongooseQueueProcess.get q t2 t3 None None c = (r, c') ->
     (Z.of_nat (List.length (filter (fun j => process j) c))
        < maxJobsInProcess (options q) ->
      (exists o, In o c /\ blockedUntil o < t2 /\
                 retries o <= maxRetries (options q) /\ done o = false /\
                 process o = false) ->
      exists v, r = Ok (VJob v)) /\
     (forall v, r = Ok (VJob v) ->
        exists k j j',
          nth_error c k = Some j /\
          (blockedUntil j < t2 /\ retries j <= maxRetries (options q) /\
           done j = false /\ process j = false) /\
          (forall o, In o c ->
             blockedUntil o < t2 -> retries o <= maxRetries (options q) ->
             done o = false -> process o = false ->
             createdAt j <= createdAt o) /\
          j' = {| _id := _id j; payload := payload j;
                  createdAt := createdAt j;
                  blockedUntil := t3 + blockDuration (options q);
                  retries := retries j + 1;
                  done := done j; error := error j;
                  workerId := this_workerId q;
                  workerHostname := this_workerHostname q;
                  process := true |} /\
          nth_error c' k = Some j' /\
          (forall i, i <> k -> nth_error c' i = nth_error c i) /\
          List.length c' = List.length c /\
          v = {| id := _id j'; view_payload := payload j';
                 view_blockedUntil := blockedUntil j';
                 view_done := done j' |}) /\
     ((forall o, In o c ->
         ~ (blockedUntil o < t2 /\ retries o <= maxRetries (options q) /\
            done o = false /\ process o = false)) ->
      c' = c /\
      (Z.of_nat (List.length (filter (fun j => process j) c))
         < maxJobsInProcess (options q) -> r = Ok VNull))).
Proof.
  split.
  - intros q t1 t2 t3 c r c' Hget.
    destruct (lease_get_cases q t1 t2 t3 c)
      as [(Hadm & E)|[(Hadm & Hnone & E)|(Hadm & k & j & Hn & Hc & Hmin & E)]];
      rewrite E in Hget; inversion Hget; subst; clear Hget.
    + split; [intros Hlt; lia|].
      split; [discriminate|]. intros _; split; auto; lia.
    + split.
      { intros _ (o & Hin & Ho). exfalso.
        apply claimable_iff in Ho. rewrite (Hnone o Hin) in Ho.
        discriminate. }
      split; [discriminate|]. auto.
    + split; [intros _ _; eexists; reflexivity|].
      split.
      * intros v Hv; inversion Hv; subst; clear Hv.
        exists k, j, (lease q t3 None j).
        split; [exact Hn|].
        split; [apply claimable_iff; exact Hc|].
        split.
        { intros o Hin H1 H2 H3. apply Hmin; auto.
          apply claimable_iff; auto. }
        split; [reflexivity|].
        split.
        { apply replace_at_same. apply nth_error_Some; congruence. }
        split; [intros i Hi; apply replace_at_other; exact Hi|].
        split; [apply replace_at_length | reflexivity].
      * intros Hno. exfalso.
        apply (Hno j); [eapply nth_error_In; eauto|].
        apply claimable_iff; exact Hc.
  - intros q t2 t3 c r c' Hget.
    destruct (flag_get_cases q t2 t3 c)
      as [(Hadm & E)|[(Hadm & Hnone & E)|(Hadm & k & j & Hn & Hc & Hmin & E)]];
      rewrite E in Hget; inversion Hget; subst; clear Hget.
    + split; [intros Hlt; lia|].
      split; [discriminate|]. intros _; split; auto; lia.
    + split.
      { intros _ (o & Hin & H1 & H2 & H3 & H4). exfalso.
        specialize (Hnone o Hin). simpl in Hnone.
        assert (Ho : claimable q t2 o = true)
          by (apply claimable_iff; auto).
        rewrite Ho, H4 in Hnone. discriminate. }
      split; [discriminate|]. auto.
    + apply andb_true_iff in Hc. destruct Hc as [Hc Hp].
      apply negb_true_iff in Hp. apply claimable_iff in Hc.
      split; [intros _ _; eexists; reflexivity|].
      split.
      * intros v Hv; inversion Hv; subst; clear Hv.
        exists k, j, (lease q t3 (Some true) j).
        split; [exact Hn|].
        split; [tauto|].
        split.
        { intros o Hin H1 H2 H3 H4. apply Hmin; auto.
          apply andb_true_iff; split;
            [apply claimable_iff; auto | apply negb_true_iff; auto]. }
        split; [reflexivity|].
        split.
        { apply replace_at_same. apply nth_error_Some; congruence. }
        split; [intros i Hi; apply replace_at_other; exact Hi|].
        split; [apply replace_at_length | reflexivity].
      * intros Hno. exfalso.
        apply (Hno j); [eapply nth_error_In; eauto|]. tauto.
Qed.

Lemma get_claims_oldest_match_witness :
  MongooseQueue.get worker 1000 1000 1000 None None two_pending
    = (Ok (VJob {| id := "J1"; view_payload := "doc";
                   view_blockedUntil := 31000; view_done := false |}),
       [pending "J2" 20;
        {| _id := "J1"; payload := "doc"; createdAt := 10;
           blockedUntil := 31000; retries := 1; done := false;
           error := None; workerId := "w1"; workerHostname := "host-a";
           process := false |}])
  /\
  (exists k j j',
     nth_error two_pending k = Some j /\
     j' = {| _id := _id j; payload := payload j;
             createdAt := createdAt j;
             blockedUntil := 1000 + blockDuration (options worker);
             retries := retries j + 1;
             done := done j; error := error j;
             workerId := this_workerId worker;
             workerHostname := this_workerHostname worker;
             process := process j |} /\
     id (view j') = "J1"%string)
  /\
  (Z.of_nat (List.length (filter (fun j => process j) two_pending))
     < maxJobsInProcess (options worker) /\
   (exists o, In o two_pending /\ blockedUntil o < 1000 /\
              retries o <= maxRetries (options worker) /\ done o = false /\
              process o = false) /\
   exists v,
     fst (MongooseQueueProcess.get worker 1000 1000 None None two_pending)
       = Ok (VJob v)).
Proof.
  split; [reflexivity|].
  destruct get_claims_oldest_match as [HL HF].
  split.
  - destruct (HL worker 1000 1000 1000 two_pending _ _ eq_refl)
      as (_ & Hs & _).
    destruct (Hs _ eq_refl)
      as (k & j & j' & Hn & _ & _ & Hj' & _ & _ & _ & Hv).
    exists k, j, j'. split; [exact Hn|]. split; [exact Hj'|].
    inversion Hv as [Hid]. unfold view; simpl. symmetry; exact Hid.
  - assert (Hadm :
      Z.of_nat (List.length (filter (fun j => process j) two_pending))
        < maxJobsInProcess (options worker)) by (vm_compute; reflexivity).
    assert (Hex : exists o, In o two_pending /\ blockedUntil o < 1000 /\
                    retries o <= maxRetries (options worker) /\
                    done o = false /\ process o = false).
    { exists (pending "J2" 20). split; [simpl; auto|].
      split; [vm_compute; reflexivity|].
      split; [vm_compute; discriminate|]. split; reflexivity. }
    split; [exact Hadm|]. split; [exact Hex|].
    destruct (MongooseQueueProcess.get worker 1000 1000 None None two_pending)
      as [r c'] eqn:Hget.
    destruct (HF worker 1000 1000 two_pending r c' Hget) as (Hlive & _).
    exact (Hlive Hadm Hex).
Defined.

(** ** The admission check of [get] *)

(** C2 as stated fails in the lease variant: with [maxJobsInProcess = 1], one
    document has [blockedUntil > now] and [done = false], yet [get] hands out
    a job, because the count also asks for [retries <= maxRetries]. *)
Lemma admission_ignores_exhausted_lease :
  let c := [on_last_lease; pending "J1" 10] in
  maxJobsInProcess (options worker)
    <= Z.of_nat (List.length
         (filter (fun j => (1000 <? blockedUntil j) && negb (done j)) c)) /\
  MongooseQueue.get worker 1000 1000 1000 None None c
    = (Ok (VJob {| id := "J1"; view_payload := "doc";
                   view_blockedUntil := 31000; view_done := false |}),
       [on_last_lease; lease worker 1000 None (pending "J1" 10)]).
Proof.
  split; [vm_compute; discriminate | reflexivity].
Qed.

(** C2, amended: [get] first counts the jobs in process -- in the lease
    variant the documents with [blockedUntil > now], [retries <= maxRetries]
    and [done = false], in the flag variant those with [process = true]; when
    the count reaches [maxJobsInProcess] the call fails with the
    too-many-jobs error, no claim is attempted and the collection is left as
    it is; below that, the call does not fail with that error. *)
Theorem admission_check :
  (forall q t1 t2 t3 f_find c,
     let tasks :=
       Z.of_nat (List.length
         (filter (fun j => (t1 <? blockedUntil j)
                           && (retries j <=? maxRetries (options q))
                           && negb (done j)) c)) in
     (maxJobsInProcess (options q) <= tasks ->
      MongooseQueue.get q t1 t2 t3 None f_find c
        = (Err (TooManyJobs (maxJobsInProcess (options q))), c)) /\
     (tasks < maxJobsInProcess (options q) ->
      forall m, fst (MongooseQueue.get q t1 t2 t3 None f_find c)
                <> Err (TooManyJobs m)))
  /\
  (forall q t2 t3 f_find c,
     let tasks :=
       Z.of_nat (List.length (filter (fun j => process j) c)) in
     (maxJobsInProcess (options q) <= tasks ->
      MongooseQueueProcess.get q t2 t3 None f_find c
        = (Err (TooManyJobs (maxJobsInProcess (options q))), c)) /\
     (tasks < maxJobsInProcess (options q) ->
      forall m, fst (MongooseQueueProcess.get q t2 t3 None f_find c)
                <> Err (TooManyJobs m))).
Proof.
  split.
  - intros q t1 t2 t3 f_find c tasks.
    unfold MongooseQueue.get; simpl.
    change (Z.of_nat (List.length (filter (leased q t1) c))) with tasks.
    split; intros Hadm.
    + apply Z.ltb_ge in Hadm. rewrite Hadm. reflexivity.
    + apply Z.ltb_lt in Hadm. rewrite Hadm. intros m.
      destruct f_find as [f|]; simpl; [discriminate|].
      destruct (Store.findOneAndUpdate _ _ _ c) as [[job|] c2]; discriminate.
  - intros q t2 t3 f_find c tasks.
    unfold MongooseQueueProcess.get; simpl.
    fold tasks.
    split; intros Hadm.
    + apply Z.ltb_ge in Hadm. rewrite Hadm. reflexivity.
    + apply Z.ltb_lt in Hadm. rewrite Hadm. intros m.
      destruct f_find as [f|]; simpl; [discriminate|].
      destruct (Store.findOneAndUpdate _ _ _ c) as [[job|] c2]; discriminate.
Qed.

Lemma admission_check_witness :
  MongooseQueue.get worker 2000 2000 2000 None None
    [lease worker 1000 None (pending "J1" 10); pending "J2" 20]
  = (Err (TooManyJobs 1),
     [lease worker 1000 None (pending "J1" 10); pending "J2" 20])
  /\
  MongooseQueueProcess.get worker 2000 2000 None None
    [lease worker 1000 (Some true) (pending "J1" 10); pending "J2" 20]
  = (Err (TooManyJobs 1),
     [lease worker 1000 (Some true) (pending "J1" 10); pending "J2" 20])
  /\
  fst (MongooseQueue.get worker 2000 2000 2000 None None [pending "J2" 20])
    <> Err (TooManyJobs 1).
Proof.
  destruct admission_check as [H1 H2].
  split; [|split].
  - apply (H1 worker 2000 2000 2000 None
             [lease worker 1000 None (pending "J1" 10); pending "J2" 20]).
    vm_compute; discriminate.
  - apply (H2 worker 2000 2000 None
             [lease worker 1000 (Some true) (pending "J1" 10);
              pending "J2" 20]).
    vm_compute; discriminate.
  - apply (H1 worker 2000 2000 2000 None [pending "J2" 20]).
    vm_compute; reflexivity.
Defined.

(** ** Failures of the store *)

(** The calls whose callback tests [err] first hand the error of the store
    on as it is. *)
Lemma store_failure_handed_on (q : Queue) (f : Fault) (c : Collection) :
  (forall oid now blocked doc,
     MongooseQueue.add oid now blocked (Some doc) (Some f) c
       = (Err (StoreError (fault_err f)), c)) /\
  (forall now,
     MongooseQueue.availableProcesses q now (Some f) c
       = (Err (StoreError (fault_err f)), c)) /\
  (forall jobId,
     MongooseQueue.ack jobId (Some f) c
       = (Err (StoreError (fault_err f)), c)) /\
  (forall jobId msg,
     MongooseQueue.error jobId msg (Some f) c
       = (Err (StoreError (fault_err f)), c)) /\
  MongooseQueue.clean (Some f) c = (Err (StoreError (fault_err f)), c) /\
  MongooseQueueProcess.clean q (Some f) c
    = (Err (StoreError (fault_err f)), c) /\
  MongooseQueue.reset (Some f) c = (Err (StoreError (fault_err f)), c) /\
  (forall now,
     MongooseQueueProcess.recoverProcessTasks q now (Some f) c
       = (Err (StoreError (fault_err f)), c)).
Proof.
  repeat split; reflexivity.
Qed.

(** The same holds for the second store call of [get], once the admission
    check has let the call through. *)
Lemma get_claim_failure_handed_on (q : Queue) (t1 t2 t3 : Z) (f : Fault)
    (c : Collection) :
  Z.of_nat (List.length (filter (leased q t1) c))
    < maxJobsInProcess (options q) ->
  MongooseQueue.get q t1 t2 t3 None (Some f) c
    = (Err (StoreError (fault_err f)), c).
Proof.
  intros Hadm. unfold MongooseQueue.get; simpl.
  apply Z.ltb_lt in Hadm. rewrite Hadm. reflexivity.
Qed.

(** C3 fails on [get]: the callback of [count] never looks at [err].  When
    the count fails with [e] and the driver passes no second argument,
    [undefined < maxJobs] is false and both variants answer with the
    too-many-jobs error; when the driver passes [null], [null < 1] holds and
    the call goes on to the claim, here answering [null] as on an empty
    queue.  In neither case does the caller see [e]. *)
Theorem get_loses_count_failure :
  (forall q t1 t2 t3 e f_find c,
     MongooseQueue.get q t1 t2 t3
       (Some {| fault_err := e; fault_arg := Undefined |}) f_find c
     = (Err (TooManyJobs (maxJobsInProcess (options q))), c)) /\
  (forall q t2 t3 e f_find c,
     MongooseQueueProcess.get q t2 t3
       (Some {| fault_err := e; fault_arg := Undefined |}) f_find c
     = (Err (TooManyJobs (maxJobsInProcess (options q))), c)) /\
  (forall t1 t2 t3 e,
     MongooseQueue.get worker t1 t2 t3
       (Some {| fault_err := e; fault_arg := Null |}) None []
     = (Ok VNull, [])) /\
  (forall t2 t3 e,
     MongooseQueueProcess.get worker t2 t3
       (Some {| fault_err := e; fault_arg := Null |}) None []
     = (Ok VNull, [])).
Proof.
  repeat split; reflexivity.
Qed.

(** ** [availableProcesses] *)

(** C9 as stated fails on the empty queue: no job is claimable and the
    callback receives [null], not the number 0. *)
Lemma availableProcesses_null_on_none :
  MongooseQueue.availableProcesses worker 1000 None [] = (Ok VNull, []) /\
  fst (MongooseQueue.availableProcesses worker 1000 None [])
    <> Ok (VNumber 0).
Proof.
  split; [reflexivity | discriminate].
Qed.

(** C9, amended: [availableProcesses] leaves the collection as it is and
    answers with the number of documents that have [done = false],
    [retries <= maxRetries] and [blockedUntil < now] when that number is not
    zero, and with [null] when it is zero. *)
Theorem availableProcesses_counts_claimable :
  forall q now c,
    let k :=
      Z.of_nat (List.length
        (filter (fun j => (blockedUntil j <? now)
                          && (retries j <=? maxRetries (options q))
                          && negb (done j)) c)) in
    MongooseQueue.availableProcesses q now None c
      = (if k =? 0 then Ok VNull else Ok (VNumber k), c).
Proof.
  intros q now c k.
  unfold MongooseQueue.availableProcesses; simpl.
  change (Z.of_nat (List.length (filter (claimable q now) c))) with k.
  destruct (k =? 0); reflexivity.
Qed.

(** ** What [get] hands out *)

(** C10: a job handed out by [get] has [done = false] and
    [blockedUntil = now + blockDuration], [now] being the reading of the
    clock at the update; the lease ends after that reading whenever
    [blockDuration > 0]. *)
Theorem get_hands_out_fresh_lease :
  (forall q t1 t2 t3 f_count f_find c v c',
     MongooseQueue.get q t1 t2 t3 f_count f_find c = (Ok (VJob v), c') ->
     view_done v = false /\
     view_blockedUntil v = t3 + blockDuration (options q) /\
     (0 < blockDuration (options q) -> t3 < view_blockedUntil v))
  /\
  (forall q t2 t3 f_count f_find c v c',
     MongooseQueueProcess.get q t2 t3 f_count f_find c = (Ok (VJob v), c') ->
     view_done v = false /\
     view_blockedUntil v = t3 + blockDuration (options q) /\
     (0 < blockDuration (options q) -> t3 < view_blockedUntil v)).
Proof.
  split.
  - intros q t1 t2 t3 f_count f_find c v c'.
    unfold MongooseQueue.get.
    destruct (Store.call f_count _ c) as [tasks c1].
    destruct (tasks_below tasks _); [|discriminate].
    destruct f_find as [f|]; simpl; [discriminate|].
    destruct (claim_step (claimable q t2) (lease q t3 None) c1)
      as [(_ & ->)|(k & j & _ & Hc & _ & ->)]; [discriminate|].
    intros H; inversion H; subst; clear H; simpl.
    apply claimable_iff in Hc.
    repeat split; try tauto; lia.
  - intros q t2 t3 f_count f_find c v c'.
    unfold MongooseQueueProcess.get.
    destruct (Store.call f_count _ c) as [tasks c1].
    destruct (tasks_below tasks _); [|discriminate].
    destruct f_find as [f|]; simpl; [discriminate|].
    destruct (claim_step (fun j => claimable q t2 j && negb (process j))
                (lease q t3 (Some true)) c1)
      as [(_ & ->)|(k & j & _ & Hc & _ & ->)]; [discriminate|].
    intros H; inversion H; subst; clear H; simpl.
    apply andb_true_iff in Hc. destruct Hc as [Hc _].
    apply claimable_iff in Hc.
    repeat split; try tauto; lia.
Qed.

Lemma get_hands_out_fresh_lease_witness :
  MongooseQueue.get worker 1000 1000 1000 None None two_pending
    = (Ok (VJob (view (lease worker 1000 None (pending "J1" 10)))),
       [pending "J2" 20; lease worker 1000 None (pending "J1" 10)])
  /\
  (view_done (view (lease worker 1000 None (pending "J1" 10))) = false /\
   view_blockedUntil (view (lease worker 1000 None (pending "J1" 10)))
     = 1000 + blockDuration (options worker) /\
   (0 < blockDuration (options worker) ->
    1000 < view_blockedUntil (view (lease worker 1000 None (pending "J1" 10))))).
Proof.
  split; [reflexivity|].
  destruct get_hands_out_fresh_lease as [H _].
  apply (H worker 1000 1000 1000 None None two_pending _
           [pending "J2" 20; lease worker 1000 None (pending "J1" 10)]).
  reflexivity.
Defined.

(** ** [clean] *)

(** C6: after a [clean] that reports no error no document with
    [done = true] is left, in either variant, and nothing is left that was
    not there before; in the variant whose [clean] asks for [done] only,
    every document with [done = false] that was there before, so every one
    with [retries > maxRetries] and [done = false], is still there as it
    was. *)
Theorem clean_selectivity :
  (forall f c c',
     MongooseQueue.clean f c = (Ok VUndefined, c') ->
     (forall j, In j c' -> done j = false) /\
     (forall j, In j c' -> In j c) /\
     (forall q j, In j c -> maxRetries (options q) < retries j ->
                  done j = false -> In j c') /\
     c' = filter (fun j => negb (done j)) c)
  /\
  (forall q f c c',
     MongooseQueueProcess.clean q f c = (Ok VUndefined, c') ->
     (forall j, In j c' -> done j = false) /\
     (forall j, In j c' -> In j c)).
Proof.
  split.
  - intros f c c' H.
    destruct f as [f|]; [discriminate|].
    unfold MongooseQueue.clean in H; simpl in H.
    inversion H; subst; clear H.
    split; [|split; [|split]]; auto.
    + intros j Hin. apply filter_In in Hin.
      destruct Hin as [_ Hd]. apply negb_true_iff; exact Hd.
    + intros j Hin. apply filter_In in Hin. tauto.
    + intros q j Hin _ Hd. apply filter_In.
      split; [exact Hin | rewrite Hd; reflexivity].
  - intros q f c c' H.
    destruct f as [f|]; [discriminate|].
    unfold MongooseQueueProcess.clean in H; simpl in H.
    inversion H; subst; clear H.
    split.
    + intros j Hin. apply filter_In in Hin.
      destruct Hin as [_ Hd]. apply negb_true_iff in Hd.
      apply orb_false_iff in Hd. tauto.
    + intros j Hin. apply filter_In in Hin. tauto.
Qed.

Lemma clean_selectivity_witness :
  MongooseQueue.clean None [finished; exhausted; pending "J1" 10]
    = (Ok VUndefined, [exhausted; pending "J1" 10])
  /\
  ((forall j, In j [exhausted; pending "J1" 10] -> done j = false) /\
   (forall j, In j [exhausted; pending "J1" 10] ->
              In j [finished; exhausted; pending "J1" 10]) /\
   (forall q j, In j [finished; exhausted; pending "J1" 10] ->
                maxRetries (options q) < retries j ->
                done j = false -> In j [exhausted; pending "J1" 10]) /\
   [exhausted; pending "J1" 10]
     = filter (fun j => negb (done j)) [finished; exhausted; pending "J1" 10])
  /\
  MongooseQueueProcess.clean worker None [finished; exhausted; pending "J1" 10]
    = (Ok VUndefined, [pending "J1" 10])
  /\
  ((forall j, In j [pending "J1" 10] -> done j = false) /\
   (forall j, In j [pending "J1" 10] ->
              In j [finished; exhausted; pending "J1" 10])).
Proof.
  destruct clean_selectivity as [H1 H2].
  split; [reflexivity|].
  split; [apply (H1 None); reflexivity|].
  split; [reflexivity|].
  apply (H2 worker None); reflexivity.
Defined.

(** ** [ack] and [error] *)

Lemma find_first_id_none (jobId : JobId) (c : Collection) :
  Store.find_first (fun x => String.eqb (_id x) jobId) c = None <->
  forall j, In j c -> _id j <> jobId.
Proof.
  rewrite find_first_none.
  split; intros H j Hin; specialize (H j Hin); apply String.eqb_neq; exact H.
Qed.

Lemma find_first_by_id (c : Collection) (j : Job) :
  NoDup (map _id c) -> In j c ->
  exists k,
    Store.find_first (fun x => String.eqb (_id x) (_id j)) c = Some (k, j) /\
    nth_error c k = Some j.
Proof.
  induction c as [|y c IH]; intros Hnd Hin; [destruct Hin|].
  simpl in Hnd. inversion Hnd as [|? ? Hfresh Hnd']; subst.
  simpl. destruct (String.eqb (_id y) (_id j)) eqn:He.
  - apply String.eqb_eq in He.
    destruct Hin as [<-|Hin]; [exists O; auto|].
    exfalso. apply Hfresh. rewrite He. apply in_map; exact Hin.
  - apply String.eqb_neq in He.
    destruct Hin as [<-|Hin]; [congruence|].
    destruct (IH Hnd' Hin) as (k & -> & Hn).
    exists (S k); auto.
Qed.

Lemma set_done_of_done (j : Job) : done j = true -> set_done j = j.
Proof.
  destruct j; simpl; intros ->; reflexivity.
Qed.

Lemma view_set_done_error (msg : string) (j : Job) :
  done j = true -> view (set_done_error msg j) = view j.
Proof.
  destruct j; simpl; intros ->; reflexivity.
Qed.

(** C5 as stated fails for [error]: on a job that [ack] has finished, with
    no error message, [error] succeeds and writes its message into the
    document. *)
Lemma error_rewrites_finished_job :
  done finished = true /\
  MongooseQueue.error "J3" "boom" None [finished]
    = (Ok (VFailedJob (view finished) (Some "boom"%string)),
       [set_done_error "boom" finished]) /\
  error finished = None /\
  error (set_done_error "boom" finished) = Some "boom"%string /\
  [set_done_error "boom" finished] <> [finished].
Proof.
  repeat split; discriminate.
Qed.

(** C5, amended: [ack] and [error] fail with the not-found error exactly
    when the store call does not fail and no document has the id.  On a
    document that already has [done = true], [ack] succeeds and leaves the
    collection as it is; [error] succeeds, keeps [done = true] and every
    other field, and overwrites the [error] field of that one document with
    its message -- which changes nothing when the document already holds
    that message.  Both variants have the same two methods. *)
Theorem ack_error_not_found_and_terminal :
  (forall jobId f c,
     fst (MongooseQueue.ack jobId f c) = Err JobNotFound <->
     (f = None /\ forall j, In j c -> _id j <> jobId)) /\
  (forall jobId msg f c,
     fst (MongooseQueue.error jobId msg f c) = Err JobNotFound <->
     (f = None /\ forall j, In j c -> _id j <> jobId)) /\
  (forall c j,
     NoDup (map _id c) -> In j c -> done j = true ->
     MongooseQueue.ack (_id j) None c = (Ok (VJob (view j)), c)) /\
  (forall c j msg,
     NoDup (map _id c) -> In j c -> done j = true ->
     exists k c',
       nth_error c k = Some j /\
       MongooseQueue.error (_id j) msg None c
         = (Ok (VFailedJob (view j) (Some msg)), c') /\
       nth_error c' k
         = Some {| _id := _id j; payload := payload j;
                   createdAt := createdAt j;
                   blockedUntil := blockedUntil j;
                   retries := retries j; done := true;
                   error := Some msg;
                   workerId := workerId j;
                   workerHostname := workerHostname j;
                   process := process j |} /\
       (forall i, i <> k -> nth_error c' i = nth_error c i) /\
       List.length c' = List.length c /\
       (error j = Some msg -> c' = c)) /\
  MongooseQueueProcess.ack = MongooseQueue.ack /\
  MongooseQueueProcess.error = MongooseQueue.error.
Proof.
  split; [|split; [|split; [|split; [|split; reflexivity]]]].
  - intros jobId f c.
    unfold MongooseQueue.ack, Common.ack, Store.call, Store.findOneAndUpdate.
    destruct f as [f|]; simpl.
    + split; [discriminate | intros [H _]; discriminate].
    + destruct (Store.find_first _ c) as [[k j]|] eqn:Hf; simpl.
      * split; [discriminate|]. intros [_ H].
        apply find_first_id_none in H. congruence.
      * split; auto. intros _. split; auto.
        apply find_first_id_none; exact Hf.
  - intros jobId msg f c.
    unfold MongooseQueue.error, Common.error, Store.call,
      Store.findOneAndUpdate.
    destruct f as [f|]; simpl.
    + split; [discriminate | intros [H _]; discriminate].
    + destruct (Store.find_first _ c) as [[k j]|] eqn:Hf; simpl.
      * split; [discriminate|]. intros [_ H].
        apply find_first_id_none in H. congruence.
      * split; auto. intros _. split; auto.
        apply find_first_id_none; exact Hf.
  - intros c j Hnd Hin Hd.
    destruct (find_first_by_id c j Hnd Hin) as (k & Hf & Hn).
    unfold MongooseQueue.ack, Common.ack, Store.call, Store.findOneAndUpdate.
    rewrite Hf, (set_done_of_done j Hd), (replace_at_id k j c Hn).
    reflexivity.
  - intros c j msg Hnd Hin Hd.
    destruct (find_first_by_id c j Hnd Hin) as (k & Hf & Hn).
    exists k, (Store.replace_at k (set_done_error msg j) c).
    split; [exact Hn|].
    split.
    { unfold MongooseQueue.error, Common.error, Store.call,
        Store.findOneAndUpdate.
      rewrite Hf, (view_set_done_error msg j Hd). reflexivity. }
    split.
    { apply replace_at_same. apply nth_error_Some; congruence. }
    split; [intros i Hi; apply replace_at_other; exact Hi|].
    split; [apply replace_at_length|].
    intros He. apply replace_at_id. rewrite Hn. f_equal.
    destruct j; simpl in *; subst; reflexivity.
Qed.

Lemma ack_error_not_found_and_terminal_witness :
  (NoDup (map _id [pending "J1" 10; finished]) /\
   In finished [pending "J1" 10; finished] /\
   done finished = true) /\
  MongooseQueue.ack "J3" None [pending "J1" 10; finished]
    = (Ok (VJob (view finished)), [pending "J1" 10; finished]) /\
  fst (MongooseQueue.ack "J9" None [pending "J1" 10; finished])
    = Err JobNotFound /\
  fst (MongooseQueue.error "J9" "boom" None [pending "J1" 10; finished])
    = Err JobNotFound /\
  exists k c',
    nth_error [pending "J1" 10; finished] k = Some finished /\
    MongooseQueue.error "J3" "boom" None [pending "J1" 10; finished]
      = (Ok (VFailedJob (view finished) (Some "boom"%string)), c') /\
    List.length c' = 2%nat.
Proof.
  assert (Hnd : NoDup (map _id [pending "J1" 10; finished])).
  { simpl. repeat constructor; simpl; try tauto.
    intros [H|[]]; discriminate. }
  assert (Hin : In finished [pending "J1" 10; finished]).
  { simpl; auto. }
  destruct ack_error_not_found_and_terminal as (Hnf & Hnf' & Hack & Herr & _).
  split; [repeat split; auto|].
  split; [exact (Hack _ finished Hnd Hin eq_refl)|].
  split.
  { apply Hnf. split; [reflexivity|].
    intros j [<-|[<-|[]]]; discriminate. }
  split.
  { apply Hnf'. split; [reflexivity|].
    intros j [<-|[<-|[]]]; discriminate. }
  destruct (Herr _ finished "boom"%string Hnd Hin eq_refl)
    as (k & c' & Hn & He & _ & _ & Hlen & _).
  exists k, c'. auto.
Defined.

(** ** How a call can change the collection *)

Lemma findOneAndUpdate_positions (cond : Job -> bool) (upd : Job -> Job)
    (s : Store.Sort) (c : Collection) (o : option Job) (c' : Collection) :
  Store.findOneAndUpdate cond upd s c = (o, c') ->
  (o = None /\ c' = c) \/
  (exists k j,
     nth_error c k = Some j /\ cond j = true /\
     o = Some (upd j) /\ c' = Store.replace_at k (upd j) c).
Proof.
  unfold Store.findOneAndUpdate.
  destruct s.
  - destruct (Store.find_first cond c) as [[k j]|] eqn:Hf;
      intros H; inversion H; subst; auto.
    destruct (find_first_some _ _ _ _ Hf) as (Hn & Hc & _).
    right; exists k, j; auto.
  - destruct (Store.find_oldest cond c) as [[k j]|] eqn:Hf;
      intros H; inversion H; subst; auto.
    destruct (find_oldest_some _ _ _ _ Hf) as (Hn & Hc & _).
    right; exists k, j; auto.
Qed.

(** Whatever the store calls do, [get] either leaves the collection alone
    and hands out no job, or rewrites one claimable document and hands out
    its view. *)
Lemma lease_get_shape (q : Queue) (t1 t2 t3 : Z) (f1 f2 : option Fault)
    (c : Collection) (r : Result) (c' : Collection) :
  MongooseQueue.get q t1 t2 t3 f1 f2 c = (r, c') ->
  (c' = c /\ forall v, r <> Ok (VJob v)) \/
  (exists k j,
     nth_error c k = Some j /\ claimable q t2 j = true /\
     r = Ok (VJob (view (lease q t3 None j))) /\
     c' = Store.replace_at k (lease q t3 None j) c).
Proof.
  unfold MongooseQueue.get.
  assert (Hc1 : snd (Store.call f1 (Store.count (leased q t1)) c) = c)
    by (destruct f1; reflexivity).
  destruct (Store.call f1 _ c) as [tasks c1]; simpl in Hc1; subst c1.
  destruct (tasks_below tasks _).
  - destruct f2 as [f|]; simpl.
    + intros H; inversion H; subst. left; split; auto; discriminate.
    + destruct (Store.findOneAndUpdate _ _ _ c) as [o c2] eqn:Hf.
      destruct (findOneAndUpdate_positions _ _ _ _ _ _ Hf)
        as [(-> & ->)|(k & j & Hn & Hc & -> & ->)];
        intros H; inversion H; subst.
      * left; split; auto; discriminate.
      * right; exists k, j; auto.
  - intros H; inversion H; subst. left; split; auto; discriminate.
Qed.

Lemma flag_get_shape (q : Queue) (t2 t3 : Z) (f1 f2 : option Fault)
    (c : Collection) (r : Result) (c' : Collection) :
  MongooseQueueProcess.get q t2 t3 f1 f2 c = (r, c') ->
  (c' = c /\ forall v, r <> Ok (VJob v)) \/
  (exists k j,
     nth_error c k = Some j /\
     claimable q t2 j && negb (process j) = true /\
     r = Ok (VJob (view (lease q t3 (Some true) j))) /\
     c' = Store.replace_at k (lease q t3 (Some true) j) c).
Proof.
  unfold MongooseQueueProcess.get.
  assert (Hc1 : snd (Store.call f1 (Store.count (fun j => process j)) c) = c)
    by (destruct f1; reflexivity).
  destruct (Store.call f1 _ c) as [tasks c1]; simpl in Hc1; subst c1.
  destruct (tasks_below tasks _).
  - destruct f2 as [f|]; simpl.
    + intros H; inversion H; subst. left; split; auto; discriminate.
    + destruct (Store.findOneAndUpdate _ _ _ c) as [o c2] eqn:Hf.
      destruct (findOneAndUpdate_positions _ _ _ _ _ _ Hf)
        as [(-> & ->)|(k & j & Hn & Hc & -> & ->)];
        intros H; inversion H; subst.
      * left; split; auto; discriminate.
      * right; exists k, j; auto.
  - intros H; inversion H; subst. left; split; auto; discriminate.
Qed.

(** A document rewritten in place by an update that keeps [_id] and
    [retries]. *)
Lemma by_id_update_keeps_retries (jobId : JobId) (upd : Job -> Job)
    (f : option Fault) (c : Collection) (o : Reply (option Job))
    (c' : Collection) :
  (forall j, _id (upd j) = _id j /\ retries (upd j) = retries j) ->
  Store.call f
    (Store.findOneAndUpdate (fun j => String.eqb (_id j) jobId) upd
       Store.Natural) c = (o, c') ->
  forall k j, nth_error c k = Some j ->
    exists j', nth_error c' k = Some j' /\ _id j' = _id j /\
               retries j' = retries j.
Proof.
  intros Hupd Hcall k j Hn.
  destruct f as [f|]; simpl in Hcall.
  - inversion Hcall; subst. exists j; auto.
  - destruct (Store.findOneAndUpdate _ _ _ c) as [o1 c1] eqn:Hf.
    inversion Hcall; subst; clear Hcall.
    destruct (findOneAndUpdate_positions _ _ _ _ _ _ Hf)
      as [(-> & ->)|(k0 & j0 & Hn0 & _ & -> & ->)].
    + exists j; auto.
    + destruct (Nat.eq_dec k k0) as [->|Hne].
      * exists (upd j0). rewrite Hn in Hn0; inversion Hn0; subst.
        split; [|apply Hupd].
        apply replace_at_same. apply nth_error_Some; congruence.
      * exists j. rewrite replace_at_other; auto.
Qed.

(** ** [recoverProcessTasks] *)

(** C8 as stated fails on what is handed back: [Model.update] answers with
    the raw write result, so the callback receives counts, not the list of
    the updated jobs. *)
Lemma recoverProcessTasks_hands_back_counts :
  MongooseQueueProcess.recoverProcessTasks worker 5000 None [in_process]
    = (Ok (VRaw {| ok := 1; n := 1; nModified := 1 |}),
       [lease worker 5000 (Some false) in_process]) /\
  fst (MongooseQueueProcess.recoverProcessTasks worker 5000 None [in_process])
    <> Ok (VDocs [lease worker 5000 (Some false) in_process]).
Proof.
  split; [reflexivity | discriminate].
Qed.

(** C8, amended: [recoverProcessTasks] rewrites exactly the documents with
    [done = false] and [process = true] -- [process = false],
    [blockedUntil = now + blockDuration], [retries + 1], the identity of the
    worker -- leaves every other document as it is, and hands back the write
    result of the store, whose counts are the number of documents
    rewritten. *)
Theorem recoverProcessTasks_sweep :
  forall q now c,
    exists c',
      MongooseQueueProcess.recoverProcessTasks q now None c
        = (Ok (VRaw
             (let k :=
                Z.of_nat (List.length
                  (filter (fun j => negb (done j) && process j) c)) in
              {| ok := 1; n := k; nModified := k |})), c') /\
      List.length c' = List.length c /\
      forall k j, nth_error c k = Some j ->
        (done j = false -> process j = true ->
         nth_error c' k
           = Some {| _id := _id j; payload := payload j;
                     createdAt := createdAt j;
                     blockedUntil := now + blockDuration (options q);
                     retries := retries j + 1;
                     done := done j; error := error j;
                     workerId := this_workerId q;
                     workerHostname := this_workerHostname q;
                     process := false |}) /\
        (~ (done j = false /\ process j = true) ->
         nth_error c' k = Some j).
Proof.
  intros q now c.
  eexists. split; [reflexivity|].
  split; [apply length_map|].
  intros k j Hn.
  rewrite nth_error_map, Hn; simpl.
  split.
  - intros Hd Hp. unfold lease. rewrite Hd, Hp. reflexivity.
  - intros Hno. destruct (done j), (process j); simpl; auto.
    exfalso; apply Hno; auto.
Qed.

Lemma recoverProcessTasks_sweep_witness :
  exists c',
    MongooseQueueProcess.recoverProcessTasks worker 5000 None
      [in_process; pending "J2" 20]
      = (Ok (VRaw {| ok := 1; n := 1; nModified := 1 |}), c') /\
    nth_error c' 0
      = Some {| _id := "J1"; payload := "doc"; createdAt := 10;
                blockedUntil := 35000; retries := 2;
                done := false; error := None;
                workerId := "w1"; workerHostname := "host-a";
                process := false |} /\
    nth_error c' 1 = Some (pending "J2" 20).
Proof.
  destruct (recoverProcessTasks_sweep worker 5000
              [in_process; pending "J2" 20]) as (c' & He & _ & Hpos).
  exists c'. split; [exact He|]. split.
  - apply (Hpos 0%nat in_process eq_refl); reflexivity.
  - apply (Hpos 1%nat (pending "J2" 20) eq_refl).
    intros [_ H]; discriminate.
Defined.

(** ** [retries] *)

(** C7 as stated fails in the flag variant: [recoverProcessTasks] raises
    [retries] from 1 to 2 on a job in process, and no [get] has claimed
    it in between. *)
Lemma recoverProcessTasks_raises_retries :
  retries in_process = 1 /\
  snd (MongooseQueueProcess.recoverProcessTasks worker 5000 None [in_process])
    = [lease worker 5000 (Some false) in_process] /\
  retries (lease worker 5000 (Some false) in_process) = 2.
Proof.
  repeat split.
Qed.

(** C7, amended: under no call does [retries] of a document go down.
    [add], [ack] and [error] leave [retries] of every document as it is, and
    the document [add] appends starts at 0; [clean] and [reset] only take
    documents away; a [get] that hands out a job raises [retries] of that
    one document by exactly 1 and leaves the others as they are, a [get]
    that hands out none changes nothing; and [recoverProcessTasks] raises by
    exactly 1 the [retries] of each document with [done = false] and
    [process = true], although it claims none. *)
Theorem retries_only_grow :
  (forall oid now blocked p f c r c',
     MongooseQueue.add oid now blocked p f c = (r, c') ->
     (forall k j, nth_error c k = Some j -> nth_error c' k = Some j) /\
     (forall j', In j' c' -> In j' c \/ retries j' = 0)) /\
  (forall jobId f c r c',
     MongooseQueue.ack jobId f c = (r, c') ->
     forall k j, nth_error c k = Some j ->
       exists j', nth_error c' k = Some j' /\ _id j' = _id j /\
                  retries j' = retries j) /\
  (forall jobId msg f c r c',
     MongooseQueue.error jobId msg f c = (r, c') ->
     forall k j, nth_error c k = Some j ->
       exists j', nth_error c' k = Some j' /\ _id j' = _id j /\
                  retries j' = retries j) /\
  (forall q t1 t2 t3 f1 f2 c r c',
     MongooseQueue.get q t1 t2 t3 f1 f2 c = (r, c') ->
     ((forall v, r <> Ok (VJob v)) -> c' = c) /\
     (forall v, r = Ok (VJob v) ->
        exists k j j',
          nth_error c k = Some j /\ nth_error c' k = Some j' /\
          id v = _id j /\ _id j' = _id j /\
          retries j' = retries j + 1 /\
          forall i, i <> k -> nth_error c' i = nth_error c i)) /\
  (forall q t2 t3 f1 f2 c r c',
     MongooseQueueProcess.get q t2 t3 f1 f2 c = (r, c') ->
     ((forall v, r <> Ok (VJob v)) -> c' = c) /\
     (forall v, r = Ok (VJob v) ->
        exists k j j',
          nth_error c k = Some j /\ nth_error c' k = Some j' /\
          id v = _id j /\ _id j' = _id j /\
          retries j' = retries j + 1 /\
          forall i, i <> k -> nth_error c' i = nth_error c i)) /\
  (forall f c r c',
     MongooseQueue.clean f c = (r, c') -> forall j, In j c' -> In j c) /\
  (forall q f c r c',
     MongooseQueueProcess.clean q f c = (r, c') ->
     forall j, In j c' -> In j c) /\
  (forall f c r c',
     MongooseQueue.reset f c = (r, c') -> forall j, In j c' -> In j c) /\
  (forall q now f c r c',
     MongooseQueueProcess.recoverProcessTasks q now f c = (r, c') ->
     forall k j, nth_error c k = Some j ->
       exists j', nth_error c' k = Some j' /\ _id j' = _id j /\
         (retries j' = retries j \/
          (retries j' = retries j + 1 /\ done j = false /\
           process j = true)) /\
         (f = None -> done j = false -> process j = true ->
          retries j' = retries j + 1)) /\
  MongooseQueueProcess.add = MongooseQueue.add /\
  MongooseQueueProcess.ack = MongooseQueue.ack /\
  MongooseQueueProcess.error = MongooseQueue.error /\
  MongooseQueueProcess.reset = MongooseQueue.reset.
Proof.
  repeat match goal with |- _ /\ _ => split end; try reflexivity.
  - (* add *)
    intros oid now blocked p f c r c' H.
    unfold MongooseQueue.add, Common.add in H.
    destruct p as [doc|]; [destruct f as [f|]|]; simpl in H;
      inversion H; subst; clear H; try (split; auto; fail).
    split.
    + intros k j Hn. rewrite nth_error_app1; auto.
      apply nth_error_Some; congruence.
    + intros j' Hin. apply in_app_or in Hin.
      destruct Hin as [Hin|[<-|[]]]; auto.
  - (* ack *)
    intros jobId f c r c' H.
    unfold MongooseQueue.ack, Common.ack in H.
    destruct (Store.call f _ c) as [o c1] eqn:Hcall.
    assert (c1 = c') by (destruct o as [[job|]|]; inversion H; auto).
    subst c1.
    eapply by_id_update_keeps_retries; [|exact Hcall].
    intros j; split; reflexivity.
  - (* error *)
    intros jobId msg f c r c' H.
    unfold MongooseQueue.error, Common.error in H.
    destruct (Store.call f _ c) as [o c1] eqn:Hcall.
    assert (c1 = c') by (destruct o as [[job|]|]; inversion H; auto).
    subst c1.
    eapply by_id_update_keeps_retries; [|exact Hcall].
    intros j; split; reflexivity.
  - (* get, lease variant *)
    intros q t1 t2 t3 f1 f2 c r c' H.
    destruct (lease_get_shape _ _ _ _ _ _ _ _ _ H)
      as [(-> & Hno)|(k & j & Hn & _ & -> & ->)].
    + split; auto. intros v Hv. destruct (Hno v Hv).
    + split; [intros Hno; destruct (Hno _ eq_refl)|].
      intros v Hv; inversion Hv; subst; clear Hv.
      exists k, j, (lease q t3 None j).
      split; [exact Hn|].
      split; [apply replace_at_same; apply nth_error_Some; congruence|].
      repeat split. intros i Hi; apply replace_at_other; exact Hi.
  - (* get, flag variant *)
    intros q t2 t3 f1 f2 c r c' H.
    destruct (flag_get_shape _ _ _ _ _ _ _ _ H)
      as [(-> & Hno)|(k & j & Hn & _ & -> & ->)].
    + split; auto. intros v Hv. destruct (Hno v Hv).
    + split; [intros Hno; destruct (Hno _ eq_refl)|].
      intros v Hv; inversion Hv; subst; clear Hv.
      exists k, j, (lease q t3 (Some true) j).
      split; [exact Hn|].
      split; [apply replace_at_same; apply nth_error_Some; congruence|].
      repeat split. intros i Hi; apply replace_at_other; exact Hi.
  - (* clean, lease variant *)
    intros f c r c' H j Hin.
    destruct f as [f|]; inversion H; subst; auto.
    apply filter_In in Hin; tauto.
  - (* clean, flag variant *)
    intros q f c r c' H j Hin.
    destruct f as [f|]; inversion H; subst; auto.
    apply filter_In in Hin; tauto.
  - (* reset *)
    intros f c r c' H j Hin.
    destruct f as [f|]; inversion H; subst; auto.
    apply filter_In in Hin; tauto.
  - (* recoverProcessTasks *)
    intros q now f c r c' H k j Hn.
    destruct f as [f|]; inversion H; subst; clear H.
    + exists j. repeat split; auto. discriminate.
    + rewrite nth_error_map, Hn; simpl.
      destruct (done j) eqn:Hd, (process j) eqn:Hp; simpl;
        eexists; (split; [reflexivity|]); simpl;
        repeat split; auto; try discriminate.
Qed.

Lemma retries_only_grow_witness :
  MongooseQueue.get worker 1000 1000 1000 None None two_pending
    = (Ok (VJob (view (lease worker 1000 None (pending "J1" 10)))),
       [pending "J2" 20; lease worker 1000 None (pending "J1" 10)])
  /\
  (exists k j j',
     nth_error two_pending k = Some j /\
     nth_error [pending "J2" 20; lease worker 1000 None (pending "J1" 10)] k
       = Some j' /\
     retries j' = retries j + 1)
  /\
  (exists j', nth_error (snd (MongooseQueue.ack "J1" None two_pending)) 1
                = Some j' /\ retries j' = 0).
Proof.
  destruct retries_only_grow as (_ & Hack & _ & Hget & _).
  split; [reflexivity|]. split.
  - destruct (Hget worker 1000 1000 1000 None None two_pending _ _ eq_refl)
      as [_ Hs].
    destruct (Hs _ eq_refl) as (k & j & j' & Hn & Hn' & _ & _ & Hr & _).
    exists k, j, j'. auto.
  - destruct (Hack "J1"%string None two_pending _ _ eq_refl 1%nat
                (pending "J1" 10) eq_refl) as (j' & Hn & _ & Hr).
    exists j'. auto.
Defined.

(** ** Leases that run out *)

Lemma nodup_id_inj (c : Collection) (a b : Job) :
  NoDup (map _id c) -> In a c -> In b c -> _id a = _id b -> a = b.
Proof.
  induction c as [|y c IH]; intros Hnd Ha Hb He; [destruct Ha|].
  simpl in Hnd. inversion Hnd as [|? ? Hfresh Hnd']; subst.
  destruct Ha as [<-|Ha], Hb as [<-|Hb]; auto.
  - exfalso. apply Hfresh. rewrite He. apply in_map; exact Hb.
  - exfalso. apply Hfresh. rewrite <- He. apply in_map; exact Ha.
Qed.

(** A document that does not match the query of a claim is neither the one
    handed out nor touched. *)
Lemma unmatched_stays (cond : Job -> bool) (x : Job) (c : Collection)
    (k : nat) (j j' : Job) :
  NoDup (map _id c) -> In j' c -> cond j' = false ->
  nth_error c k = Some j -> cond j = true ->
  In j' (Store.replace_at k x c) /\ _id j <> _id j'.
Proof.
  intros Hnd Hin Hno Hn Hc.
  assert (Hne : j <> j') by congruence.
  split.
  - destruct (In_nth_error _ _ Hin) as (kj & Hkj).
    apply nth_error_In with (n := kj).
    rewrite replace_at_other; auto.
    intros ->; congruence.
  - intros He. apply Hne.
    apply (nodup_id_inj c); auto.
    eapply nth_error_In; eauto.
Qed.

(** C4 as stated fails at three places.  At the instant [now = blockedUntil]
    the job claimed at 1000 (lease until 31000) is not handed out: the query
    asks for [blockedUntil < now].  In the flag variant the claimed job keeps
    [process = true] and is not handed out long after the lease, whether the
    admission check refuses the call or, with room for two jobs, lets it
    through.  And with [maxRetries = 0] the one claim has used up the
    retries, so the job is not handed out after the lease either. *)
Lemma claimed_job_not_handed_out_again :
  (MongooseQueue.get worker 1000 1000 1000 None None [pending "J1" 10]
     = (Ok (VJob (view (lease worker 1000 None (pending "J1" 10)))),
        [lease worker 1000 None (pending "J1" 10)]) /\
   blockedUntil (lease worker 1000 None (pending "J1" 10)) = 31000 /\
   MongooseQueue.get worker 31000 31000 31000 None None
     [lease worker 1000 None (pending "J1" 10)]
     = (Ok VNull, [lease worker 1000 None (pending "J1" 10)]))
  /\
  (MongooseQueueProcess.get worker 1000 1000 None None [pending "J1" 10]
     = (Ok (VJob (view in_process)), [in_process]) /\
   MongooseQueueProcess.get worker 99999 99999 None None [in_process]
     = (Err (TooManyJobs 1), [in_process]) /\
   MongooseQueueProcess.get roomy 99999 99999 None None [in_process]
     = (Ok VNull, [in_process]))
  /\
  (MongooseQueue.get strict 1000 1000 1000 None None [pending "J1" 10]
     = (Ok (VJob (view (lease strict 1000 None (pending "J1" 10)))),
        [lease strict 1000 None (pending "J1" 10)]) /\
   MongooseQueue.get strict 99999 99999 99999 None None
     [lease strict 1000 None (pending "J1" 10)]
     = (Ok VNull, [lease strict 1000 None (pending "J1" 10)])).
Proof.
  repeat split.
Qed.

(** C4, amended: in the lease variant a job that [get] has claimed and that
    nobody has touched since is handed out by no [get] whose clock reads
    [now <= blockedUntil]; once [now > blockedUntil], and provided its
    [retries] have not passed [maxRetries], a [get] that the admission check
    lets through hands it out again when every other claimable job is
    younger.  In the flag variant a claimed job that nobody has touched is
    handed out by no later [get], whatever the clock reads. *)
Theorem lease_expiry_reclaim :
  (forall q t1 t2 t3 c v c',
     MongooseQueue.get q t1 t2 t3 None None c = (Ok (VJob v), c') ->
     exists j',
       In j' c' /\ v = view j' /\
       blockedUntil j' = t3 + blockDuration (options q) /\
       forall c2,
         NoDup (map _id c2) -> In j' c2 ->
         (forall s1 s2 s3 f1 f2 r c3,
            s2 <= blockedUntil j' ->
            MongooseQueue.get q s1 s2 s3 f1 f2 c2 = (r, c3) ->
            In j' c3 /\ forall v', r = Ok (VJob v') -> id v' <> id v) /\
         (forall s1 s2 s3,
            blockedUntil j' < s2 ->
            retries j' <= maxRetries (options q) ->
            Z.of_nat (List.length (filter (leased q s1) c2))
              < maxJobsInProcess (options q) ->
            (forall o, In o c2 -> _id o <> _id j' ->
               blockedUntil o < s2 -> retries o <= maxRetries (options q) ->
               done o = false -> createdAt j' < createdAt o) ->
            exists c3,
              MongooseQueue.get q s1 s2 s3 None None c2
                = (Ok (VJob {| id := id v;
                               view_payload := view_payload v;
                               view_blockedUntil :=
                                 s3 + blockDuration (options q);
                               view_done := false |}), c3)))
  /\
  (forall q t2 t3 c v c',
     MongooseQueueProcess.get q t2 t3 None None c = (Ok (VJob v), c') ->
     exists j',
       In j' c' /\ v = view j' /\ process j' = true /\
       forall c2,
         NoDup (map _id c2) -> In j' c2 ->
         forall s2 s3 f1 f2 r c3,
           MongooseQueueProcess.get q s2 s3 f1 f2 c2 = (r, c3) ->
           In j' c3 /\ forall v', r = Ok (VJob v') -> id v' <> id v).
Proof.
  split.
  - intros q t1 t2 t3 c v c' Hget.
    destruct (lease_get_shape _ _ _ _ _ _ _ _ _ Hget)
      as [(_ & Hno)|(k & j & Hn & Hc & Hr & ->)];
      [destruct (Hno v eq_refl)|].
    inversion Hr; subst v; clear Hr.
    apply claimable_iff in Hc. destruct Hc as (_ & _ & Hd).
    set (j' := lease q t3 None j).
    exists j'.
    split.
    { apply nth_error_In with (n := k).
      apply replace_at_same. apply nth_error_Some; congruence. }
    split; [reflexivity|]. split; [reflexivity|].
    intros c2 Hnd Hin. split.
    + intros s1 s2 s3 f1 f2 r c3 Hs Hget2.
      destruct (lease_get_shape _ _ _ _ _ _ _ _ _ Hget2)
        as [(-> & Hno)|(k2 & j2 & Hn2 & Hc2 & -> & ->)].
      * split; auto. intros v' Hv'. destruct (Hno v' Hv').
      * assert (Hnot : claimable q s2 j' = false).
        { destruct (claimable q s2 j') eqn:E; auto.
          apply claimable_iff in E. lia. }
        destruct (unmatched_stays (claimable q s2) (lease q s3 None j2)
                    c2 k2 j2 j' Hnd Hin Hnot Hn2 Hc2) as [Hstay Hid].
        split; auto.
        intros v' Hv'; inversion Hv'; subst v'. exact Hid.
    + intros s1 s2 s3 Hs Hr Hadm Hold.
      destruct (lease_get_cases q s1 s2 s3 c2)
        as [(Hfull & _)|[(_ & Hnone & _)|(_ & k2 & j2 & Hn2 & Hc2 & Hmin & E)]].
      * lia.
      * specialize (Hnone j' Hin).
        assert (claimable q s2 j' = true) by (apply claimable_iff; auto).
        congruence.
      * assert (Hj' : claimable q s2 j' = true) by (apply claimable_iff; auto).
        assert (Hsame : j2 = j').
        { destruct (string_dec (_id j2) (_id j')) as [He|Hne].
          - apply (nodup_id_inj c2); auto. eapply nth_error_In; eauto.
          - exfalso. apply claimable_iff in Hc2.
            destruct Hc2 as (H1 & H2 & H3).
            assert (createdAt j' < createdAt j2).
            { apply Hold; auto. eapply nth_error_In; eauto. }
            specialize (Hmin j' Hin Hj'). lia. }
        subst j2. eexists. rewrite E. unfold view; simpl.
        rewrite Hd. reflexivity.
  - intros q t2 t3 c v c' Hget.
    destruct (flag_get_shape _ _ _ _ _ _ _ _ Hget)
      as [(_ & Hno)|(k & j & Hn & Hc & Hr & ->)];
      [destruct (Hno v eq_refl)|].
    inversion Hr; subst v; clear Hr.
    set (j' := lease q t3 (Some true) j).
    exists j'.
    split.
    { apply nth_error_In with (n := k).
      apply replace_at_same. apply nth_error_Some; congruence. }
    split; [reflexivity|]. split; [reflexivity|].
    intros c2 Hnd Hin s2 s3 f1 f2 r c3 Hget2.
    destruct (flag_get_shape _ _ _ _ _ _ _ _ Hget2)
      as [(-> & Hno)|(k2 & j2 & Hn2 & Hc2 & -> & ->)].
    + split; auto. intros v' Hv'. destruct (Hno v' Hv').
    + assert (Hnot : claimable q s2 j' && negb (process j') = false).
      { simpl. apply andb_false_r. }
      destruct (unmatched_stays
                  (fun x => claimable q s2 x && negb (process x))
                  (lease q s3 (Some true) j2)
                  c2 k2 j2 j' Hnd Hin Hnot Hn2 Hc2) as [Hstay Hid].
      split; auto.
      intros v' Hv'; inversion Hv'; subst v'. exact Hid.
Qed.

Lemma lease_expiry_reclaim_witness :
  MongooseQueue.get worker 1000 1000 1000 None None [pending "J1" 10]
    = (Ok (VJob (view held)), [held]) /\
  (forall r c3,
     MongooseQueue.get worker 31000 31000 31000 None None [held] = (r, c3) ->
     forall v', r = Ok (VJob v') -> id v' <> "J1"%string) /\
  (exists c3,
     MongooseQueue.get worker 31001 31001 31001 None None [held]
       = (Ok (VJob {| id := "J1"; view_payload := "doc";
                      view_blockedUntil := 61001;
                      view_done := false |}), c3)).
Proof.
  split; [reflexivity|].
  destruct lease_expiry_reclaim as [H _].
  destruct (H worker 1000 1000 1000 [pending "J1" 10] _ _ eq_refl)
    as (j' & Hin & Hv & Hb & Hlater).
  destruct Hin as [<-|[]].
  assert (Hnd : NoDup (map _id [held])).
  { simpl. repeat constructor. intros []. }
  destruct (Hlater [held] Hnd (or_introl eq_refl)) as [Hbefore Hafter].
  split.
  - intros r c3 Hget.
    apply (Hbefore 31000 31000 31000 None None r c3); [|exact Hget].
    vm_compute; discriminate.
  - apply (Hafter 31001 31001 31001).
    + vm_compute; reflexivity.
    + vm_compute; discriminate.
    + vm_compute; reflexivity.
    + intros o [<-|[]] Hne. destruct (Hne eq_refl).
Defined.

(** * Further properties of the methods *)

(** ** Calls that rewrite documents in place *)

Section InPlace.

Variable R : Job -> Job -> Prop.
Hypothesis R_refl : forall j, R j j.

Lemma Forall2_same (c : Collection) : Forall2 R c c.
Proof.
  induction c; constructor; auto.
Qed.

Lemma replace_at_Forall2 (k : nat) (j x : Job) (c : Collection) :
  nth_error c k = Some j -> R j x -> Forall2 R c (Store.replace_at k x c).
Proof.
  revert k; induction c as [|y c IH]; intros [|k] Hn Hr; simpl in *;
    try discriminate.
  - inversion Hn; subst. constructor; auto. apply Forall2_same.
  - constructor; auto.
Qed.

Lemma map_if_Forall2 (cond : Job -> bool) (upd : Job -> Job) (c : Collection) :
  (forall j, cond j = true -> R j (upd j)) ->
  Forall2 R c (map (fun j => if cond j then upd j else j) c).
Proof.
  intros H. induction c as [|y c IH]; simpl; constructor; auto.
  destruct (cond y) eqn:E; auto.
Qed.

Lemma findOneAndUpdate_Forall2 (cond : Job -> bool) (upd : Job -> Job)
    (s : Store.Sort) (f : option Fault) (c : Collection) :
  (forall j, cond j = true -> R j (upd j)) ->
  Forall2 R c (snd (Store.call f (Store.findOneAndUpdate cond upd s) c)).
Proof.
  intros H. destruct f as [f|]; simpl; [apply Forall2_same|].
  destruct (Store.findOneAndUpdate cond upd s c) as [o c'] eqn:Hf.
  destruct (findOneAndUpdate_positions _ _ _ _ _ _ Hf)
    as [(_ & ->)|(k & j & Hn & Hc & _ & ->)]; simpl.
  - apply Forall2_same.
  - eapply replace_at_Forall2; eauto.
Qed.

Lemma lease_get_Forall2 (q : Queue) (t1 t2 t3 : Z) (f1 f2 : option Fault)
    (c : Collection) :
  (forall j, claimable q t2 j = true -> R j (lease q t3 None j)) ->
  Forall2 R c (snd (MongooseQueue.get q t1 t2 t3 f1 f2 c)).
Proof.
  intros H.
  destruct (MongooseQueue.get q t1 t2 t3 f1 f2 c) as [r c'] eqn:Hget.
  destruct (lease_get_shape _ _ _ _ _ _ _ _ _ Hget)
    as [(-> & _)|(k & j & Hn & Hc & _ & ->)]; simpl.
  - apply Forall2_same.
  - eapply replace_at_Forall2; eauto.
Qed.

Lemma flag_get_Forall2 (q : Queue) (t2 t3 : Z) (f1 f2 : option Fault)
    (c : Collection) :
  (forall j, claimable q t2 j = true -> process j = false ->
             R j (lease q t3 (Some true) j)) ->
  Forall2 R c (snd (MongooseQueueProcess.get q t2 t3 f1 f2 c)).
Proof.
  intros H.
  destruct (MongooseQueueProcess.get q t2 t3 f1 f2 c) as [r c'] eqn:Hget.
  destruct (flag_get_shape _ _ _ _ _ _ _ _ Hget)
    as [(-> & _)|(k & j & Hn & Hc & _ & ->)]; simpl.
  - apply Forall2_same.
  - apply andb_true_iff in Hc. destruct Hc as [Hc Hp].
    apply negb_true_iff in Hp.
    eapply replace_at_Forall2; eauto.
Qed.

Lemma ack_Forall2 (jobId : JobId) (f : option Fault) (c : Collection) :
  (forall j, R j (set_done j)) ->
  Forall2 R c (snd (MongooseQueue.ack jobId f c)).
Proof.
  intros H.
  pose proof (findOneAndUpdate_Forall2
                (fun j => String.eqb (_id j) jobId) set_done Store.Natural
                f c (fun j _ => H j)) as HF.
  unfold MongooseQueue.ack, Common.ack.
  destruct (Store.call f _ c) as [[[job|]|ff] c']; exact HF.
Qed.

Lemma error_Forall2 (jobId : JobId) (msg : string) (f : option Fault)
    (c : Collection) :
  (forall j, R j (set_done_error msg j)) ->
  Forall2 R c (snd (MongooseQueue.error jobId msg f c)).
Proof.
  intros H.
  pose proof (findOneAndUpdate_Forall2
                (fun j => String.eqb (_id j) jobId) (set_done_error msg)
                Store.Natural f c (fun j _ => H j)) as HF.
  unfold MongooseQueue.error, Common.error.
  destruct (Store.call f _ c) as [[[job|]|ff] c']; exact HF.
Qed.

Lemma recover_Forall2 (q : Queue) (now : Z) (f : option Fault)
    (c : Collection) :
  (forall j, done j = false -> process j = true ->
             R j (lease q now (Some false) j)) ->
  Forall2 R c (snd (MongooseQueueProcess.recoverProcessTasks q now f c)).
Proof.
  intros H. destruct f as [f|]; simpl; [apply Forall2_same|].
  apply map_if_Forall2. intros j Hc.
  apply andb_true_iff in Hc. destruct Hc as [Hd Hp].
  apply negb_true_iff in Hd. auto.
Qed.

End InPlace.

Lemma Forall2_ids (c c' : Collection) :
  Forall2 (fun j j' => _id j' = _id j) c c' -> map _id c' = map _id c.
Proof.
  induction 1; simpl; congruence.
Qed.

Lemma Forall2_Forall (P : Job -> Prop) (c c' : Collection) :
  Forall2 (fun j j' => P j -> P j') c c' -> Forall P c -> Forall P c'.
Proof.
  induction 1; intros HP; inversion HP; subst; constructor; auto.
Qed.

Lemma NoDup_ids_filter (cond : Job -> bool) (c : Collection) :
  NoDup (map _id c) -> NoDup (map _id (filter cond c)).
Proof.
  induction c as [|y c IH]; simpl; intros Hnd; auto.
  inversion Hnd as [|? ? Hfresh Hnd']; subst.
  destruct (cond y); simpl; auto.
  constructor; auto.
  intros Hin. apply Hfresh.
  apply in_map_iff in Hin. destruct Hin as (x & Hx & Hin).
  apply filter_In in Hin. rewrite <- Hx. apply in_map; tauto.
Qed.

Lemma Forall_filter_keeps (P : Job -> Prop) (cond : Job -> bool)
    (c : Collection) :
  Forall P c -> Forall P (filter cond c).
Proof.
  rewrite !Forall_forall. intros H j Hin.
  apply filter_In in Hin. apply H; tauto.
Qed.

(** What [add] does to the collection. *)
Lemma add_shape (oid : JobId) (now blocked : Z) (p : option string)
    (f : option Fault) (c : Collection) :
  (snd (MongooseQueue.add oid now blocked p f c) = c /\
   forall s, fst (MongooseQueue.add oid now blocked p f c) <> Ok (VString s))
  \/
  (exists doc,
     p = Some doc /\ f = None /\
     MongooseQueue.add oid now blocked p f c
       = (Ok (VString oid), c ++ [new_job oid now blocked doc])).
Proof.
  unfold MongooseQueue.add, Common.add.
  destruct p as [doc|]; [destruct f as [f|]|]; simpl.
  - left; split; auto; discriminate.
  - right; exists doc; auto.
  - left; split; auto; discriminate.
Qed.

(** ** Fields no call rewrites *)

(** X1: [get] (both variants), [ack], [error] and [recoverProcessTasks]
    rewrite documents in place: document by document, [_id], [payload] and
    [createdAt] stay as they were and [done], once true, stays true; [add]
    only appends to the collection. *)
Theorem identity_fields_kept :
  let kept := fun j j' : Job =>
    _id j' = _id j /\ payload j' = payload j /\
    createdAt j' = createdAt j /\ (done j = true -> done j' = true) in
  (forall q t1 t2 t3 f1 f2 c,
     Forall2 kept c (snd (MongooseQueue.get q t1 t2 t3 f1 f2 c))) /\
  (forall q t2 t3 f1 f2 c,
     Forall2 kept c (snd (MongooseQueueProcess.get q t2 t3 f1 f2 c))) /\
  (forall jobId f c,
     Forall2 kept c (snd (MongooseQueue.ack jobId f c))) /\
  (forall jobId msg f c,
     Forall2 kept c (snd (MongooseQueue.error jobId msg f c))) /\
  (forall q now f c,
     Forall2 kept c
       (snd (MongooseQueueProcess.recoverProcessTasks q now f c))) /\
  (forall oid now blocked p f c,
     exists tail,
       snd (MongooseQueue.add oid now blocked p f c) = c ++ tail).
Proof.
  intros kept.
  assert (Hrefl : forall j, kept j j) by (intros j; repeat split; auto).
  repeat match goal with |- _ /\ _ => split end.
  - intros. apply lease_get_Forall2; auto.
    intros j _; repeat split; auto.
  - intros. apply flag_get_Forall2; auto.
    intros j _ _; repeat split; auto.
  - intros. apply ack_Forall2; auto.
    intros j; repeat split; auto.
  - intros. apply error_Forall2; auto.
    intros j; repeat split; auto.
  - intros. apply recover_Forall2; auto.
    intros j _ _; repeat split; auto.
  - intros oid now blocked p f c.
    destruct (add_shape oid now blocked p f c)
      as [(-> & _)|(doc & _ & _ & ->)].
    + exists []. symmetry; apply app_nil_r.
    + eexists; reflexivity.
Qed.

Lemma availableProcesses_reads_only (q : Queue) (now : Z) (f : option Fault)
    (c : Collection) :
  snd (MongooseQueue.availableProcesses q now f c) = c.
Proof.
  unfold MongooseQueue.availableProcesses.
  destruct f as [f|]; simpl; auto.
  destruct (_ =? 0); reflexivity.
Qed.

(** ** Unique ids *)

(** X2: a collection whose documents have pairwise different [_id]s keeps
    that property under every call of either variant, provided an [add]
    comes with an [_id] no document has yet. *)
Theorem unique_ids_kept :
  (forall q x c,
     NoDup (map _id c) ->
     (forall oid now blocked p f,
        x = LeaseClient.Add oid now blocked p f -> ~ In oid (map _id c)) ->
     NoDup (map _id (snd (LeaseClient.call q x c)))) /\
  (forall q x c,
     NoDup (map _id c) ->
     (forall oid now blocked p f,
        x = FlagClient.Add oid now blocked p f -> ~ In oid (map _id c)) ->
     NoDup (map _id (snd (FlagClient.call q x c)))).
Proof.
  assert (Hadd : forall oid now blocked p f c,
            NoDup (map _id c) -> ~ In oid (map _id c) ->
            NoDup (map _id (snd (MongooseQueue.add oid now blocked p f c)))).
  { intros oid now blocked p f c Hnd Hfresh.
    destruct (add_shape oid now blocked p f c)
      as [(-> & _)|(doc & _ & _ & ->)]; auto.
    simpl. rewrite map_app; simpl.
    apply NoDup_app; [exact Hnd | repeat constructor; intros [] |].
    intros a Ha [<-|[]]. exact (Hfresh Ha). }
  assert (Hsame : forall c c' : Collection,
            Forall2 (fun j j' => _id j' = _id j) c c' ->
            NoDup (map _id c) -> NoDup (map _id c')).
  { intros c c' HF Hnd. rewrite (Forall2_ids _ _ HF). exact Hnd. }
  split; intros q x c Hnd Hfresh; destruct x; simpl.
  - apply Hadd; eauto.
  - rewrite availableProcesses_reads_only; exact Hnd.
  - eapply Hsame; [|exact Hnd]. apply lease_get_Forall2; auto.
  - eapply Hsame; [|exact Hnd]. apply ack_Forall2; auto.
  - eapply Hsame; [|exact Hnd]. apply error_Forall2; auto.
  - destruct f; simpl; [exact Hnd | apply NoDup_ids_filter; exact Hnd].
  - destruct f; simpl; [exact Hnd | apply NoDup_ids_filter; exact Hnd].
  - apply Hadd; eauto.
  - eapply Hsame; [|exact Hnd]. apply flag_get_Forall2; auto.
  - eapply Hsame; [|exact Hnd]. apply ack_Forall2; auto.
  - eapply Hsame; [|exact Hnd]. apply error_Forall2; auto.
  - destruct f; simpl; [exact Hnd | apply NoDup_ids_filter; exact Hnd].
  - destruct f; simpl; [exact Hnd | apply NoDup_ids_filter; exact Hnd].
  - eapply Hsame; [|exact Hnd]. apply recover_Forall2; auto.
Qed.

Lemma unique_ids_kept_witness :
  NoDup (map _id two_pending) /\
  NoDup (map _id
    (snd (LeaseClient.call worker
            (LeaseClient.Add "J3" 30 30 (Some "doc"%string) None)
            two_pending))) /\
  NoDup (map _id
    (snd (FlagClient.call worker (FlagClient.Get 1000 1000 None None)
            two_pending))).
Proof.
  assert (Hnd : NoDup (map _id two_pending)).
  { simpl. repeat constructor; simpl; try tauto.
    intros [H|[]]; discriminate. }
  destruct unique_ids_kept as [HL HF].
  split; [exact Hnd|]. split.
  - apply HL; [exact Hnd|].
    intros oid now blocked p f E; inversion E; subst.
    simpl. intros [H|[H|[]]]; discriminate.
  - apply HF; [exact Hnd|].
    intros oid now blocked p f E; discriminate.
Defined.

(** ** What holds of every document after any sequence of calls *)

Section Invariants.

Variable q : Queue.
Variable P : Job -> Prop.

Hypothesis P_new : forall oid now blocked doc, P (new_job oid now blocked doc).
Hypothesis P_done : forall j, P j -> P (set_done j).
Hypothesis P_error : forall msg j, P j -> P (set_done_error msg j).

Lemma add_keeps (oid : JobId) (now blocked : Z) (p : option string)
    (f : option Fault) (c : Collection) :
  Forall P c -> Forall P (snd (MongooseQueue.add oid now blocked p f c)).
Proof.
  intros H.
  destruct (add_shape oid now blocked p f c)
    as [(-> & _)|(doc & _ & _ & ->)]; auto.
  simpl. apply Forall_app; split; auto.
Qed.

Lemma lease_call_keeps (x : LeaseClient.Call) (c : Collection) :
  (forall t2 t3 j, claimable q t2 j = true -> P j -> P (lease q t3 None j)) ->
  Forall P c -> Forall P (snd (LeaseClient.call q x c)).
Proof.
  intros P_get H. destruct x; simpl.
  - apply add_keeps; auto.
  - rewrite availableProcesses_reads_only; auto.
  - eapply Forall2_Forall; [|exact H].
    apply lease_get_Forall2; eauto.
  - eapply Forall2_Forall; [|exact H]. apply ack_Forall2; auto.
  - eapply Forall2_Forall; [|exact H]. apply error_Forall2; auto.
  - destruct f; simpl; auto. apply Forall_filter_keeps; auto.
  - destruct f; simpl; auto. apply Forall_filter_keeps; auto.
Qed.

Lemma lease_calls_keep (xs : list LeaseClient.Call) (c : Collection) :
  (forall t2 t3 j, claimable q t2 j = true -> P j -> P (lease q t3 None j)) ->
  Forall P c -> Forall P (LeaseClient.calls q xs c).
Proof.
  intros P_get. revert c.
  induction xs as [|x xs IH]; intros c H; simpl; auto.
  apply IH. apply lease_call_keeps; auto.
Qed.

Lemma flag_call_keeps (x : FlagClient.Call) (c : Collection) :
  (forall t2 t3 j, claimable q t2 j = true -> process j = false ->
                   P j -> P (lease q t3 (Some true) j)) ->
  (forall now j, done j = false -> process j = true ->
                 P j -> P (lease q now (Some false) j)) ->
  Forall P c -> Forall P (snd (FlagClient.call q x c)).
Proof.
  intros P_get P_rec H. destruct x; simpl.
  - apply add_keeps; auto.
  - eapply Forall2_Forall; [|exact H].
    apply flag_get_Forall2; eauto.
  - eapply Forall2_Forall; [|exact H]. apply ack_Forall2; auto.
  - eapply Forall2_Forall; [|exact H]. apply error_Forall2; auto.
  - destruct f; simpl; auto. apply Forall_filter_keeps; auto.
  - destruct f; simpl; auto. apply Forall_filter_keeps; auto.
  - eapply Forall2_Forall; [|exact H].
    apply recover_Forall2; eauto.
Qed.

Lemma flag_calls_keep (xs : list FlagClient.Call) (c : Collection) :
  (forall t2 t3 j, claimable q t2 j = true -> process j = false ->
                   P j -> P (lease q t3 (Some true) j)) ->
  (forall now j, done j = false -> process j = true ->
                 P j -> P (lease q now (Some false) j)) ->
  Forall P c -> Forall P (FlagClient.calls q xs c).
Proof.
  intros P_get P_rec. revert c.
  induction xs as [|x xs IH]; intros c H; simpl; auto.
  apply IH. apply flag_call_keeps; auto.
Qed.

End Invariants.

(** X3: in the lease variant, with [maxRetries >= -1], whatever calls are
    made on a queue that starts empty, with whatever clock readings and store
    failures, every document has [0 <= retries <= maxRetries + 1]: a job is
    handed out at most [maxRetries + 1] times. *)
Theorem lease_retries_bounded :
  forall q xs,
    -1 <= maxRetries (options q) ->
    Forall (fun j => 0 <= retries j <= maxRetries (options q) + 1)
      (LeaseClient.calls q xs []).
Proof.
  intros q xs Hm.
  apply lease_calls_keep; simpl; auto; try lia.
  intros t2 t3 j Hc Hj. apply claimable_iff in Hc. lia.
Qed.

Lemma lease_retries_bounded_witness :
  Forall (fun j => 0 <= retries j <= maxRetries (options worker) + 1)
    (LeaseClient.calls worker
       [LeaseClient.Add "J1" 10 10 (Some "doc"%string) None;
        LeaseClient.Get 1000 1000 1000 None None;
        LeaseClient.Get 40000 40000 40000 None None]
       []) /\
  map retries
    (LeaseClient.calls worker
       [LeaseClient.Add "J1" 10 10 (Some "doc"%string) None;
        LeaseClient.Get 1000 1000 1000 None None;
        LeaseClient.Get 40000 40000 40000 None None]
       []) = [2].
Proof.
  split; [|reflexivity].
  apply lease_retries_bounded. vm_compute; discriminate.
Defined.

(** X4: in the flag variant, with [maxRetries >= -1], whatever calls are
    made on a queue that starts empty, every document has
    [0 <= retries <= maxRetries + 2], and one with [process = true] has
    [1 <= retries <= maxRetries + 1]: a sweep of [recoverProcessTasks] can
    push [retries] one past what a claim can reach. *)
Theorem flag_retries_bounded :
  forall q xs,
    -1 <= maxRetries (options q) ->
    Forall (fun j =>
              0 <= retries j <= maxRetries (options q) + 2 /\
              (process j = true ->
               1 <= retries j <= maxRetries (options q) + 1))
      (FlagClient.calls q xs []).
Proof.
  intros q xs Hm.
  apply flag_calls_keep; simpl; auto.
  - intros; split; [lia | discriminate].
  - intros t2 t3 j Hc Hp Hj. apply claimable_iff in Hc. lia.
  - intros now j Hd Hp Hj. split; [|discriminate].
    destruct Hj as [_ Hj]. specialize (Hj Hp). lia.
Qed.

Lemma flag_retries_bounded_witness :
  Forall (fun j =>
            0 <= retries j <= maxRetries (options strict) + 2 /\
            (process j = true ->
             1 <= retries j <= maxRetries (options strict) + 1))
    (FlagClient.calls strict
       [FlagClient.Add "J1" 10 10 (Some "doc"%string) None;
        FlagClient.Get 1000 1000 None None;
        FlagClient.RecoverProcessTasks 2000 None]
       []) /\
  map retries
    (FlagClient.calls strict
       [FlagClient.Add "J1" 10 10 (Some "doc"%string) None;
        FlagClient.Get 1000 1000 None None;
        FlagClient.RecoverProcessTasks 2000 None]
       []) = [2].
Proof.
  split; [|reflexivity].
  apply flag_retries_bounded. vm_compute; discriminate.
Defined.

(** X5: whatever calls are made on a queue that starts empty, in either
    variant, a document carries an [error] message only if it has
    [done = true]. *)
Theorem error_only_on_done :
  (forall q xs,
     Forall (fun j => error j <> None -> done j = true)
       (LeaseClient.calls q xs [])) /\
  (forall q xs,
     Forall (fun j => error j <> None -> done j = true)
       (FlagClient.calls q xs [])).
Proof.
  split; intros q xs.
  - apply lease_calls_keep; simpl; auto; congruence.
  - apply flag_calls_keep; simpl; auto; congruence.
Qed.

(** ** Jobs that [get] passes over *)

Lemma lease_get_passes_over (q : Queue) (t1 t2 t3 : Z)
    (f1 f2 : option Fault) (c : Collection) (j : Job) (r : Result)
    (c' : Collection) :
  NoDup (map _id c) -> In j c ->
  (done j = true \/ maxRetries (options q) < retries j \/
   t2 <= blockedUntil j) ->
  MongooseQueue.get q t1 t2 t3 f1 f2 c = (r, c') ->
  In j c' /\ forall v, r = Ok (VJob v) -> id v <> _id j.
Proof.
  intros Hnd Hin Hwhy Hget.
  destruct (lease_get_shape _ _ _ _ _ _ _ _ _ Hget)
    as [(-> & Hno)|(k & j0 & Hn & Hc & -> & ->)].
  - split; auto. intros v Hv; destruct (Hno v Hv).
  - assert (Hnot : claimable q t2 j = false).
    { destruct (claimable q t2 j) eqn:E; auto.
      apply claimable_iff in E.
      destruct Hwhy as [H|[H|H]]; [destruct E as (_ & _ & E); congruence
                                  | lia | lia]. }
    destruct (unmatched_stays (claimable q t2) (lease q t3 None j0)
                c k j0 j Hnd Hin Hnot Hn Hc) as [Hstay Hid].
    split; auto. intros v Hv; inversion Hv; subst. exact Hid.
Qed.

Lemma flag_get_passes_over (q : Queue) (t2 t3 : Z)
    (f1 f2 : option Fault) (c : Collection) (j : Job) (r : Result)
    (c' : Collection) :
  NoDup (map _id c) -> In j c ->
  (done j = true \/ maxRetries (options q) < retries j \/
   t2 <= blockedUntil j \/ process j = true) ->
  MongooseQueueProcess.get q t2 t3 f1 f2 c = (r, c') ->
  In j c' /\ forall v, r = Ok (VJob v) -> id v <> _id j.
Proof.
  intros Hnd Hin Hwhy Hget.
  destruct (flag_get_shape _ _ _ _ _ _ _ _ Hget)
    as [(-> & Hno)|(k & j0 & Hn & Hc & -> & ->)].
  - split; auto. intros v Hv; destruct (Hno v Hv).
  - assert (Hnot : claimable q t2 j && negb (process j) = false).
    { destruct (claimable q t2 j) eqn:E; auto.
      apply claimable_iff in E.
      destruct Hwhy as [H|[H|[H|H]]];
        [destruct E as (_ & _ & E); congruence | lia | lia |].
      rewrite H; reflexivity. }
    destruct (unmatched_stays
                (fun x => claimable q t2 x && negb (process x))
                (lease q t3 (Some true) j0)
                c k j0 j Hnd Hin Hnot Hn Hc) as [Hstay Hid].
    split; auto. intros v Hv; inversion Hv; subst. exact Hid.
Qed.

(** X6: with unique ids, a document that is done, or out of retries
    ([retries > maxRetries]), or whose lease has not run out
    ([now <= blockedUntil]) -- or, in the flag variant, that has
    [process = true] -- is not the job a [get] hands out and is left as it
    is, whatever the store calls do. *)
Theorem unclaimable_passed_over :
  (forall q t1 t2 t3 f1 f2 c j r c',
     NoDup (map _id c) -> In j c ->
     (done j = true \/ maxRetries (options q) < retries j \/
      t2 <= blockedUntil j) ->
     MongooseQueue.get q t1 t2 t3 f1 f2 c = (r, c') ->
     In j c' /\ forall v, r = Ok (VJob v) -> id v <> _id j) /\
  (forall q t2 t3 f1 f2 c j r c',
     NoDup (map _id c) -> In j c ->
     (done j = true \/ maxRetries (options q) < retries j \/
      t2 <= blockedUntil j \/ process j = true) ->
     MongooseQueueProcess.get q t2 t3 f1 f2 c = (r, c') ->
     In j c' /\ forall v, r = Ok (VJob v) -> id v <> _id j).
Proof.
  split.
  - intros; eapply lease_get_passes_over; eauto.
  - intros; eapply flag_get_passes_over; eauto.
Qed.

Lemma unclaimable_passed_over_witness :
  (NoDup (map _id [exhausted; finished; pending "J1" 10]) /\
   In exhausted [exhausted; finished; pending "J1" 10] /\
   maxRetries (options worker) < retries exhausted) /\
  MongooseQueue.get worker 1000 1000 1000 None None
    [exhausted; finished; pending "J1" 10]
    = (Ok (VJob (view (lease worker 1000 None (pending "J1" 10)))),
       [exhausted; finished; lease worker 1000 None (pending "J1" 10)]) /\
  (In exhausted
     [exhausted; finished; lease worker 1000 None (pending "J1" 10)] /\
   forall v,
     Ok (VJob (view (lease worker 1000 None (pending "J1" 10)))) = Ok (VJob v) ->
     id v <> _id exhausted).
Proof.
  assert (Hnd : NoDup (map _id [exhausted; finished; pending "J1" 10])).
  { simpl. repeat constructor; simpl; try tauto.
    - intros [H|[H|[]]]; discriminate.
    - intros [H|[]]; discriminate. }
  assert (Hin : In exhausted [exhausted; finished; pending "J1" 10])
    by (simpl; auto).
  assert (Hr : maxRetries (options worker) < retries exhausted)
    by (vm_compute; reflexivity).
  destruct unclaimable_passed_over as [H _].
  split; [repeat split; auto|].
  split; [reflexivity|].
  apply (H worker 1000 1000 1000 None None
           [exhausted; finished; pending "J1" 10] exhausted _ _ Hnd Hin
           (or_intror (or_introl Hr)) eq_refl).
Defined.

(** ** Oldest first *)

(** X7: two [get]s of the lease variant, one after the other: the job
    handed out second, if it was already free at the first call
    ([blockedUntil < now] there), was created no earlier than the job handed
    out first. *)
Theorem serial_gets_oldest_first :
  forall q t1 t2 t3 s1 s2 s3 f1 f2 c v1 c1 v2 c2,
    MongooseQueue.get q t1 t2 t3 None None c = (Ok (VJob v1), c1) ->
    MongooseQueue.get q s1 s2 s3 f1 f2 c1 = (Ok (VJob v2), c2) ->
    exists j1 j2,
      In j1 c /\ In j2 c /\ _id j1 = id v1 /\ _id j2 = id v2 /\
      (blockedUntil j2 < t2 -> createdAt j1 <= createdAt j2).
Proof.
  intros q t1 t2 t3 s1 s2 s3 f1 f2 c v1 c1 v2 c2 Hg1 Hg2.
  destruct (lease_get_cases q t1 t2 t3 c)
    as [(_ & E)|[(_ & _ & E)|(_ & k & j & Hn & Hc & Hmin & E)]];
    rewrite E in Hg1; inversion Hg1; subst; clear Hg1 E.
  destruct (lease_get_shape _ _ _ _ _ _ _ _ _ Hg2)
    as [(_ & Hno)|(k2 & j2 & Hn2 & Hc2 & Hr & _)];
    [destruct (Hno v2 eq_refl)|].
  inversion Hr; subst; clear Hr.
  destruct (Nat.eq_dec k2 k) as [->|Hne].
  - exists j, j.
    rewrite replace_at_same in Hn2
      by (apply nth_error_Some; congruence).
    inversion Hn2; subst.
    repeat split; auto; try (eapply nth_error_In; eauto); lia.
  - rewrite replace_at_other in Hn2 by exact Hne.
    exists j, j2.
    repeat split; auto; try (eapply nth_error_In; eauto).
    intros Hfree. apply Hmin; [eapply nth_error_In; eauto|].
    apply claimable_iff in Hc2. apply claimable_iff. tauto.
Qed.

Lemma serial_gets_oldest_first_witness :
  MongooseQueue.get roomy 1000 1000 1000 None None two_pending
    = (Ok (VJob (view (lease roomy 1000 None (pending "J1" 10)))),
       [pending "J2" 20; lease roomy 1000 None (pending "J1" 10)]) /\
  MongooseQueue.get roomy 2000 2000 2000 None None
    [pending "J2" 20; lease roomy 1000 None (pending "J1" 10)]
    = (Ok (VJob (view (lease roomy 2000 None (pending "J2" 20)))),
       [lease roomy 2000 None (pending "J2" 20);
        lease roomy 1000 None (pending "J1" 10)]) /\
  exists j1 j2,
    In j1 two_pending /\ In j2 two_pending /\
    _id j1 = "J1"%string /\ _id j2 = "J2"%string /\
    (blockedUntil j2 < 1000 -> createdAt j1 <= createdAt j2).
Proof.
  split; [reflexivity|]. split; [reflexivity|].
  exact (serial_gets_oldest_first roomy 1000 1000 1000 2000 2000 2000
           None None two_pending _ _ _ _ eq_refl eq_refl).
Defined.

(** ** [add], and what finds the job afterwards *)

Lemma find_oldest_last (cond : Job -> bool) (c : Collection) (x : Job) :
  (forall j, In j c -> cond j = false) -> cond x = true ->
  Store.find_oldest cond (c ++ [x]) = Some (List.length c, x).
Proof.
  intros Hno Hx. induction c as [|y c IH]; simpl.
  - rewrite Hx. reflexivity.
  - rewrite IH by (intros; apply Hno; simpl; auto).
    rewrite (Hno y) by (simpl; auto). reflexivity.
Qed.

Lemma find_first_last (cond : Job -> bool) (c : Collection) (x : Job) :
  (forall j, In j c -> cond j = false) -> cond x = true ->
  Store.find_first cond (c ++ [x]) = Some (List.length c, x).
Proof.
  intros Hno Hx. induction c as [|y c IH]; simpl.
  - rewrite Hx. reflexivity.
  - rewrite IH by (intros; apply Hno; simpl; auto).
    rewrite (Hno y) by (simpl; auto). reflexivity.
Qed.

Lemma replace_at_last (c : Collection) (x y : Job) :
  Store.replace_at (List.length c) y (c ++ [x]) = c ++ [y].
Proof.
  induction c as [|z c IH]; simpl; congruence.
Qed.

Lemma filter_none (cond : Job -> bool) (c : Collection) :
  (forall j, In j c -> cond j = false) -> filter cond c = [].
Proof.
  intros H. induction c as [|y c IH]; simpl; auto.
  rewrite (H y) by (simpl; auto). apply IH. intros; apply H; simpl; auto.
Qed.

(** X8: [add] answers with the missing-payload error, without calling the
    store, when the payload is missing; with the error of the store when the
    save fails; in both cases nothing is stored.  Otherwise it appends one
    new job and answers with its [_id], and when no document had that [_id]
    before, an [ack] of the id handed back finds exactly that job: it
    answers with its payload and [done = true] and marks it done. *)
Theorem add_then_ack :
  (forall oid now blocked f c,
     MongooseQueue.add oid now blocked None f c = (Err PayloadMissing, c)) /\
  (forall oid now blocked doc f c,
     MongooseQueue.add oid now blocked (Some doc) (Some f) c
       = (Err (StoreError (fault_err f)), c)) /\
  (forall oid now blocked doc c,
     (forall j, In j c -> _id j <> oid) ->
     exists c1,
       MongooseQueue.add oid now blocked (Some doc) None c
         = (Ok (VString oid), c1) /\
       List.length c1 = S (List.length c) /\
       MongooseQueue.ack oid None c1
         = (Ok (VJob {| id := oid; view_payload := doc;
                        view_blockedUntil := blocked;
                        view_done := true |}),
            c ++ [set_done (new_job oid now blocked doc)])).
Proof.
  split; [reflexivity|]. split; [reflexivity|].
  intros oid now blocked doc c Hfresh.
  eexists. split; [reflexivity|].
  split; [rewrite length_app; simpl; lia|].
  unfold MongooseQueue.ack, Common.ack, Store.call, Store.findOneAndUpdate.
  rewrite (find_first_last _ c (new_job oid now blocked doc)).
  - rewrite replace_at_last. reflexivity.
  - intros j Hin. apply String.eqb_neq. auto.
  - simpl. apply String.eqb_refl.
Qed.

Lemma add_then_ack_witness :
  (forall j, In j two_pending -> _id j <> "J3"%string) /\
  exists c1,
    MongooseQueue.add "J3" 30 30 (Some "doc"%string) None two_pending
      = (Ok (VString "J3"), c1) /\
    List.length c1 = 3%nat /\
    MongooseQueue.ack "J3" None c1
      = (Ok (VJob {| id := "J3"; view_payload := "doc";
                     view_blockedUntil := 30; view_done := true |}),
         two_pending ++ [set_done (new_job "J3" 30 30 "doc")]).
Proof.
  assert (Hfresh : forall j, In j two_pending -> _id j <> "J3"%string).
  { intros j [<-|[<-|[]]]; discriminate. }
  split; [exact Hfresh|].
  destruct add_then_ack as (_ & _ & H).
  exact (H "J3"%string 30 30 "doc"%string two_pending Hfresh).
Defined.

(** X9: in the lease variant, after an [add] to a queue in which no job is
    claimable, a [get] that the admission check lets through hands out the
    job just added, with its payload and a new lease, when the job's
    [blockedUntil] lies before the clock reading of the query and
    [maxRetries >= 0]; when that reading is not yet past [blockedUntil] (a
    job enqueued in this very millisecond, say) the [get] answers [null] and
    changes nothing. *)
Theorem add_then_get :
  forall q oid now blocked doc t1 t2 t3 c,
    (forall j, In j c ->
       ~ (blockedUntil j < t2 /\ retries j <= maxRetries (options q) /\
          done j = false)) ->
    Z.of_nat (List.length (filter (leased q t1) c))
      < maxJobsInProcess (options q) ->
    blocked <= t1 ->
    0 <= maxRetries (options q) ->
    let c1 := snd (MongooseQueue.add oid now blocked (Some doc) None c) in
    (blocked < t2 ->
     MongooseQueue.get q t1 t2 t3 None None c1
       = (Ok (VJob {| id := oid; view_payload := doc;
                      view_blockedUntil := t3 + blockDuration (options q);
                      view_done := false |}),
          c ++ [lease q t3 None (new_job oid now blocked doc)])) /\
    (t2 <= blocked ->
     MongooseQueue.get q t1 t2 t3 None None c1 = (Ok VNull, c1)).
Proof.
  intros q oid now blocked doc t1 t2 t3 c Hnone Hadm Hb Hm c1.
  assert (Hno : forall j, In j c -> claimable q t2 j = false).
  { intros j Hin. destruct (claimable q t2 j) eqn:E; auto.
    apply claimable_iff in E. destruct (Hnone j Hin E). }
  assert (Hcount :
    (Z.of_nat (List.length (filter (leased q t1) c1))
       <? maxJobsInProcess (options q)) = true).
  { apply Z.ltb_lt. unfold c1; simpl.
    rewrite filter_app, length_app; simpl.
    replace (leased q t1 (new_job oid now blocked doc)) with false.
    - simpl. rewrite Nat.add_0_r. exact Hadm.
    - symmetry. unfold leased; simpl.
      replace (t1 <? blocked) with false; auto.
      symmetry; apply Z.ltb_ge; exact Hb. }
  unfold MongooseQueue.get; simpl. fold c1. rewrite Hcount.
  unfold c1; simpl. unfold Store.findOneAndUpdate.
  split; intros Ht.
  - rewrite (find_oldest_last _ c (new_job oid now blocked doc)); auto.
    + rewrite replace_at_last. reflexivity.
    + apply claimable_iff; simpl. repeat split; auto.
  - replace (Store.find_oldest (claimable q t2)
               (c ++ [new_job oid now blocked doc])) with (@None (nat * Job));
      auto.
    symmetry. apply find_oldest_none.
    intros j Hin. apply in_app_or in Hin.
    destruct Hin as [Hin|[<-|[]]]; auto.
    unfold claimable; simpl.
    replace (blocked <? t2) with false; auto.
    symmetry; apply Z.ltb_ge; exact Ht.
Qed.

Lemma add_then_get_witness :
  MongooseQueue.get worker 1000 1000 1000 None None
    (snd (MongooseQueue.add "J5" 50 50 (Some "doc"%string) None
            [finished; exhausted]))
  = (Ok (VJob {| id := "J5"; view_payload := "doc";
                 view_blockedUntil := 31000; view_done := false |}),
     [finished; exhausted] ++
     [lease worker 1000 None (new_job "J5" 50 50 "doc")]) /\
  MongooseQueue.get worker 50 50 50 None None
    (snd (MongooseQueue.add "J5" 50 50 (Some "doc"%string) None
            [finished; exhausted]))
  = (Ok VNull,
     snd (MongooseQueue.add "J5" 50 50 (Some "doc"%string) None
            [finished; exhausted])).
Proof.
  split.
  - apply (add_then_get worker "J5"%string 50 50 "doc"%string 1000 1000 1000
             [finished; exhausted]).
    + intros j [<-|[<-|[]]] (H1 & H2 & H3);
        [discriminate H3 | vm_compute in H2; apply H2; reflexivity].
    + vm_compute; reflexivity.
    + vm_compute; discriminate.
    + vm_compute; discriminate.
    + vm_compute; reflexivity.
  - apply (add_then_get worker "J5"%string 50 50 "doc"%string 50 50 50
             [finished; exhausted]).
    + intros j [<-|[<-|[]]] (H1 & H2 & H3);
        [discriminate H3 | vm_compute in H2; apply H2; reflexivity].
    + vm_compute; reflexivity.
    + vm_compute; discriminate.
    + vm_compute; discriminate.
    + vm_compute; discriminate.
Defined.

(** ** From claim to acknowledgement *)

Lemma filter_length_Forall2 (p : Job -> bool) (c c' : Collection) :
  Forall2 (fun j j' => p j' = p j) c c' ->
  List.length (filter p c') = List.length (filter p c).
Proof.
  induction 1 as [|j j' c c' Hp _ IH]; simpl; auto.
  rewrite Hp. destruct (p j); simpl; auto.
Qed.

Lemma filter_length_replace (p : Job -> bool) (k : nat) (j x : Job)
    (c : Collection) :
  nth_error c k = Some j ->
  (List.length (filter p (Store.replace_at k x c))
   + (if p j then 1 else 0)
   = List.length (filter p c) + (if p x then 1 else 0))%nat.
Proof.
  revert k; induction c as [|y c IH]; intros [|k] Hn; simpl in *;
    try discriminate.
  - inversion Hn; subst. destruct (p j), (p x); simpl; lia.
  - specialize (IH k Hn). destruct (p y); simpl; lia.
Qed.

(** The document [ack] rewrites, under unique ids. *)
Lemma ack_of_member (c : Collection) (j : Job) :
  NoDup (map _id c) -> In j c ->
  exists k,
    nth_error c k = Some j /\
    MongooseQueue.ack (_id j) None c
      = (Ok (VJob (view (set_done j))), Store.replace_at k (set_done j) c).
Proof.
  intros Hnd Hin.
  destruct (find_first_by_id c j Hnd Hin) as (k & Hf & Hn).
  exists k. split; auto.
  unfold MongooseQueue.ack, Common.ack, Store.call, Store.findOneAndUpdate.
  rewrite Hf. reflexivity.
Qed.

(** X10: with unique ids, an [ack] of the id that a [get] has just handed
    out succeeds; it answers with the same id, payload and [blockedUntil]
    and with [done = true], and afterwards the collection holds a done
    document with that id, which no later [get] hands out. *)
Theorem get_then_ack :
  forall q t1 t2 t3 c v c1,
    NoDup (map _id c) ->
    MongooseQueue.get q t1 t2 t3 None None c = (Ok (VJob v), c1) ->
    exists c2 j,
      MongooseQueue.ack (id v) None c1
        = (Ok (VJob {| id := id v; view_payload := view_payload v;
                       view_blockedUntil := view_blockedUntil v;
                       view_done := true |}), c2) /\
      In j c2 /\ _id j = id v /\ done j = true /\
      forall s1 s2 s3 f1 f2 r c3,
        MongooseQueue.get q s1 s2 s3 f1 f2 c2 = (r, c3) ->
        forall v', r = Ok (VJob v') -> id v' <> id v.
Proof.
  intros q t1 t2 t3 c v c1 Hnd Hget.
  assert (Hnd1 : NoDup (map _id c1)).
  { replace c1 with (snd (MongooseQueue.get q t1 t2 t3 None None c))
      by (rewrite Hget; reflexivity).
    rewrite (Forall2_ids c); auto.
    apply lease_get_Forall2; auto. }
  destruct (lease_get_shape _ _ _ _ _ _ _ _ _ Hget)
    as [(_ & Hno)|(k & j & Hn & _ & Hr & Hc1)];
    [destruct (Hno v eq_refl)|].
  inversion Hr; subst v; clear Hr.
  set (j1 := lease q t3 None j) in *.
  assert (Hin1 : In j1 c1).
  { subst c1. apply nth_error_In with (n := k).
    apply replace_at_same. apply nth_error_Some; congruence. }
  destruct (ack_of_member c1 j1 Hnd1 Hin1) as (k1 & Hn1 & Hack).
  exists (Store.replace_at k1 (set_done j1) c1), (set_done j1).
  split; [exact Hack|].
  assert (Hin2 : In (set_done j1) (Store.replace_at k1 (set_done j1) c1)).
  { apply nth_error_In with (n := k1).
    apply replace_at_same. apply nth_error_Some; congruence. }
  split; [exact Hin2|]. split; [reflexivity|]. split; [reflexivity|].
  intros s1 s2 s3 f1 f2 r c3 Hget2 v' Hv'.
  assert (Hnd2 : NoDup (map _id (Store.replace_at k1 (set_done j1) c1))).
  { rewrite (Forall2_ids c1); auto.
    apply replace_at_Forall2 with (j := j1); auto. }
  destruct (lease_get_passes_over q s1 s2 s3 f1 f2 _ (set_done j1) r c3
              Hnd2 Hin2 (or_introl eq_refl) Hget2) as [_ Hid].
  exact (Hid v' Hv').
Qed.

Lemma get_then_ack_witness :
  NoDup (map _id two_pending) /\
  MongooseQueue.get worker 1000 1000 1000 None None two_pending
    = (Ok (VJob (view (lease worker 1000 None (pending "J1" 10)))),
       [pending "J2" 20; lease worker 1000 None (pending "J1" 10)]) /\
  exists c2 j,
    MongooseQueue.ack "J1" None
      [pending "J2" 20; lease worker 1000 None (pending "J1" 10)]
      = (Ok (VJob {| id := "J1"; view_payload := "doc";
                     view_blockedUntil := 31000; view_done := true |}), c2) /\
    In j c2 /\ _id j = "J1"%string /\ done j = true.
Proof.
  assert (Hnd : NoDup (map _id two_pending)).
  { simpl. repeat constructor; simpl; try tauto.
    intros [H|[]]; discriminate. }
  split; [exact Hnd|]. split; [reflexivity|].
  destruct (get_then_ack worker 1000 1000 1000 two_pending _ _ Hnd eq_refl)
    as (c2 & j & Hack & Hin & Hid & Hd & _).
  exists c2, j. auto.
Defined.

(** X11: in the flag variant [ack] and [error] leave the [process] flag of
    every document as it is, so they free no slot: a [get] that the
    admission check refuses is still refused, with the collection left as
    it is, after any [ack] or [error], whatever the clock reads. *)
Theorem flag_ack_frees_no_slot :
  forall q c,
    maxJobsInProcess (options q)
      <= Z.of_nat (List.length (filter (fun j => process j) c)) ->
    (forall jobId f t2 t3 f2,
       let c1 := snd (MongooseQueueProcess.ack jobId f c) in
       MongooseQueueProcess.get q t2 t3 None f2 c1
         = (Err (TooManyJobs (maxJobsInProcess (options q))), c1)) /\
    (forall jobId msg f t2 t3 f2,
       let c1 := snd (MongooseQueueProcess.error jobId msg f c) in
       MongooseQueueProcess.get q t2 t3 None f2 c1
         = (Err (TooManyJobs (maxJobsInProcess (options q))), c1)).
Proof.
  intros q c Hfull.
  assert (Hrefused : forall c1 t2 t3 f2,
            Forall2 (fun j j' => process j' = process j) c c1 ->
            MongooseQueueProcess.get q t2 t3 None f2 c1
              = (Err (TooManyJobs (maxJobsInProcess (options q))), c1)).
  { intros c1 t2 t3 f2 HF.
    unfold MongooseQueueProcess.get; simpl.
    rewrite (filter_length_Forall2 (fun j => process j) c c1 HF).
    apply Z.ltb_ge in Hfull. rewrite Hfull. reflexivity. }
  split.
  - intros jobId f t2 t3 f2 c1. apply Hrefused.
    apply (ack_Forall2 (fun j j' => process j' = process j)); auto.
  - intros jobId msg f t2 t3 f2 c1. apply Hrefused.
    apply (error_Forall2 (fun j j' => process j' = process j)); auto.
Qed.

Lemma flag_ack_frees_no_slot_witness :
  maxJobsInProcess (options worker)
    <= Z.of_nat (List.length (filter (fun j => process j) [in_process])) /\
  MongooseQueueProcess.ack "J1" None [in_process]
    = (Ok (VJob (view (set_done in_process))), [set_done in_process]) /\
  MongooseQueueProcess.get worker 99999 99999 None None [set_done in_process]
    = (Err (TooManyJobs 1), [set_done in_process]).
Proof.
  assert (Hfull : maxJobsInProcess (options worker)
            <= Z.of_nat (List.length
                 (filter (fun j => process j) [in_process])))
    by (vm_compute; discriminate).
  split; [exact Hfull|]. split; [reflexivity|].
  destruct (flag_ack_frees_no_slot worker [in_process] Hfull) as [H _].
  exact (H "J1"%string None 99999 99999 None).
Defined.

(** X12: in the lease variant, with unique ids, an [ack] of a job that the
    admission check counts (lease running, [retries <= maxRetries], not
    done) lowers that count by exactly one. *)
Theorem lease_ack_frees_one_slot :
  forall q now c j,
    NoDup (map _id c) -> In j c ->
    now < blockedUntil j -> retries j <= maxRetries (options q) ->
    done j = false ->
    Z.of_nat (List.length
      (filter (leased q now) (snd (MongooseQueue.ack (_id j) None c))))
    = Z.of_nat (List.length (filter (leased q now) c)) - 1.
Proof.
  intros q now c j Hnd Hin Hb Hr Hd.
  destruct (ack_of_member c j Hnd Hin) as (k & Hn & ->); simpl.
  pose proof (filter_length_replace (leased q now) k j (set_done j) c Hn)
    as Hlen.
  assert (Hj : leased q now j = true) by (apply leased_iff; auto).
  assert (Hj' : leased q now (set_done j) = false).
  { unfold leased; simpl. apply andb_false_r. }
  rewrite Hj, Hj' in Hlen. lia.
Qed.

Lemma lease_ack_frees_one_slot_witness :
  (NoDup (map _id [held; pending "J2" 20]) /\
   In held [held; pending "J2" 20] /\
   2000 < blockedUntil held /\ retries held <= maxRetries (options worker) /\
   done held = false) /\
  Z.of_nat (List.length
    (filter (leased worker 2000)
       (snd (MongooseQueue.ack (_id held) None [held; pending "J2" 20]))))
  = Z.of_nat (List.length
      (filter (leased worker 2000) [held; pending "J2" 20])) - 1.
Proof.
  assert (Hnd : NoDup (map _id [held; pending "J2" 20])).
  { simpl. repeat constructor; simpl; try tauto.
    intros [H|[]]; discriminate. }
  assert (Hin : In held [held; pending "J2" 20]) by (simpl; auto).
  assert (Hb : 2000 < blockedUntil held) by (vm_compute; reflexivity).
  assert (Hr : retries held <= maxRetries (options worker))
    by (vm_compute; discriminate).
  split; [repeat split; auto|].
  exact (lease_ack_frees_one_slot worker 2000 _ held Hnd Hin Hb Hr eq_refl).
Defined.

(** X13: with unique ids, after an [ack] of a job in the collection and a
    [clean] (of either variant) no document with that id is left, and a
    further [ack] or [error] of the id fails with the not-found error. *)
Theorem ack_clean_then_not_found :
  forall q c j,
    NoDup (map _id c) -> In j c ->
    (let c2 := snd (MongooseQueue.clean None
                      (snd (MongooseQueue.ack (_id j) None c))) in
     (forall j', In j' c2 -> _id j' <> _id j) /\
     fst (MongooseQueue.ack (_id j) None c2) = Err JobNotFound /\
     (forall msg,
        fst (MongooseQueue.error (_id j) msg None c2) = Err JobNotFound)) /\
    (let c2 := snd (MongooseQueueProcess.clean q None
                      (snd (MongooseQueueProcess.ack (_id j) None c))) in
     (forall j', In j' c2 -> _id j' <> _id j) /\
     fst (MongooseQueueProcess.ack (_id j) None c2) = Err JobNotFound /\
     (forall msg,
        fst (MongooseQueueProcess.error (_id j) msg None c2)
          = Err JobNotFound)).
Proof.
  intros q c j Hnd Hin.
  destruct (ack_of_member c j Hnd Hin) as (k & Hn & Hack).
  set (c1 := Store.replace_at k (set_done j) c) in *.
  assert (Hnd1 : NoDup (map _id c1)).
  { unfold c1. rewrite (Forall2_ids c); auto.
    apply replace_at_Forall2 with (j := j); auto. }
  assert (Hin1 : In (set_done j) c1).
  { apply nth_error_In with (n := k).
    apply replace_at_same. apply nth_error_Some; congruence. }
  assert (Hgone : forall cond : Job -> bool,
            (forall x, done x = true -> cond x = true) ->
            forall j', In j' (filter (fun x => negb (cond x)) c1) ->
                       _id j' <> _id j).
  { intros cond Hcond j' Hin' He.
    apply filter_In in Hin'. destruct Hin' as [Hin' Hkeep].
    assert (j' = set_done j)
      by (apply (nodup_id_inj c1); auto).
    subst j'. rewrite (Hcond (set_done j) eq_refl) in Hkeep.
    discriminate. }
  assert (Hnf : forall c2,
            (forall j', In j' c2 -> _id j' <> _id j) ->
            fst (MongooseQueue.ack (_id j) None c2) = Err JobNotFound /\
            (forall msg,
               fst (MongooseQueue.error (_id j) msg None c2)
                 = Err JobNotFound)).
  { intros c2 Hno.
    apply find_first_id_none in Hno.
    unfold MongooseQueue.ack, MongooseQueue.error, Common.ack, Common.error,
      Store.call, Store.findOneAndUpdate.
    rewrite Hno. split; reflexivity. }
  split.
  - unfold MongooseQueueProcess.ack. rewrite Hack; simpl.
    assert (Hno := Hgone (fun x => done x) (fun x H => H)).
    split; [exact Hno|]. apply Hnf; exact Hno.
  - unfold MongooseQueueProcess.ack, MongooseQueueProcess.error.
    fold MongooseQueue.ack MongooseQueue.error.
    rewrite Hack; simpl.
    assert (Hno := Hgone
              (fun x => done x || (maxRetries (options q) <? retries x))
              (fun x H => eq_trans (f_equal (fun b => b || _) H) eq_refl)).
    split; [exact Hno|]. apply Hnf; exact Hno.
Qed.

Lemma ack_clean_then_not_found_witness :
  (NoDup (map _id two_pending) /\ In (pending "J1" 10) two_pending) /\
  snd (MongooseQueue.clean None
         (snd (MongooseQueue.ack "J1" None two_pending)))
    = [pending "J2" 20] /\
  fst (MongooseQueue.ack "J1" None
         (snd (MongooseQueue.clean None
                 (snd (MongooseQueue.ack "J1" None two_pending)))))
    = Err JobNotFound /\
  fst (MongooseQueueProcess.ack "J1" None
         (snd (MongooseQueueProcess.clean worker None
                 (snd (MongooseQueueProcess.ack "J1" None two_pending)))))
    = Err JobNotFound.
Proof.
  assert (Hnd : NoDup (map _id two_pending)).
  { simpl. repeat constructor; simpl; try tauto.
    intros [H|[]]; discriminate. }
  assert (Hin : In (pending "J1" 10) two_pending) by (simpl; auto).
  destruct (ack_clean_then_not_found worker two_pending (pending "J1" 10)
              Hnd Hin) as [(_ & HL & _) (_ & HF & _)].
  split; [split; auto|]. split; [reflexivity|]. split; [exact HL | exact HF].
Defined.

(** ** The admission check and the configuration *)

(** X14: with [maxJobsInProcess <= 0] every [get], of either variant, fails
    with the too-many-jobs error and leaves the collection as it is,
    whatever the collection holds and whatever the store calls do. *)
Theorem no_slot_no_job :
  forall q,
    maxJobsInProcess (options q) <= 0 ->
    (forall t1 t2 t3 f1 f2 c,
       MongooseQueue.get q t1 t2 t3 f1 f2 c
         = (Err (TooManyJobs (maxJobsInProcess (options q))), c)) /\
    (forall t2 t3 f1 f2 c,
       MongooseQueueProcess.get q t2 t3 f1 f2 c
         = (Err (TooManyJobs (maxJobsInProcess (options q))), c)).
Proof.
  intros q Hm.
  assert (Hbelow : forall (cond : Job -> bool) f1 c,
            tasks_below (fst (Store.call f1 (Store.count cond) c))
              (maxJobsInProcess (options q)) = false /\
            snd (Store.call f1 (Store.count cond) c) = c).
  { intros cond f1 c. destruct f1 as [[e [|]]|]; simpl; split; auto;
      apply Z.ltb_ge; lia. }
  split.
  - intros t1 t2 t3 f1 f2 c. unfold MongooseQueue.get.
    destruct (Hbelow (leased q t1) f1 c) as [Hb Hc].
    destruct (Store.call f1 _ c) as [tasks c1]; simpl in *.
    rewrite Hb, Hc. reflexivity.
  - intros t2 t3 f1 f2 c. unfold MongooseQueueProcess.get.
    destruct (Hbelow (fun j => process j) f1 c) as [Hb Hc].
    destruct (Store.call f1 _ c) as [tasks c1]; simpl in *.
    rewrite Hb, Hc. reflexivity.
Qed.

Lemma no_slot_no_job_witness :
  MongooseQueue.get
    (constructor "host-a" None
       (Some {| given_queueCollection := None; given_blockDuration := None;
                given_maxRetries := None;
                given_maxJobsInProcess := Some 0 |}))
    1000 1000 1000 None None two_pending
  = (Err (TooManyJobs 0), two_pending).
Proof.
  apply (no_slot_no_job
           (constructor "host-a" None
              (Some {| given_queueCollection := None;
                       given_blockDuration := None;
                       given_maxRetries := None;
                       given_maxJobsInProcess := Some 0 |}))).
  vm_compute; discriminate.
Defined.

Lemma filter_length_pos (p : Job -> bool) (c : Collection) (j : Job) :
  In j c -> p j = true -> (1 <= List.length (filter p c))%nat.
Proof.
  intros Hin Hp.
  assert (H : In j (filter p c)) by (apply filter_In; auto).
  destruct (filter p c); [destruct H | simpl; lia].
Qed.

(** X15: a queue constructed without [maxJobsInProcess] has one slot.  In
    the lease variant, once a [get] has handed out a job that is not on its
    last retry, every [get] on the collection as that call left it whose
    clock reads a time before the end of the lease fails with the
    too-many-jobs error and changes nothing.  In the flag variant the same
    holds after any job was handed out, whatever the clock reads. *)
Theorem single_slot_by_default :
  forall hostname workerId o,
    (forall g, o = Some g -> given_maxJobsInProcess g = None) ->
    let q := constructor hostname workerId o in
    (forall t1 t2 t3 c v c1,
       MongooseQueue.get q t1 t2 t3 None None c = (Ok (VJob v), c1) ->
       (forall j, In j c1 -> _id j = id v ->
                  retries j <= maxRetries (options q)) ->
       forall s1 s2 s3 f2,
         s1 < view_blockedUntil v ->
         MongooseQueue.get q s1 s2 s3 None f2 c1
           = (Err (TooManyJobs 1), c1)) /\
    (forall t2 t3 c v c1,
       MongooseQueueProcess.get q t2 t3 None None c = (Ok (VJob v), c1) ->
       forall s2 s3 f2,
         MongooseQueueProcess.get q s2 s3 None f2 c1
           = (Err (TooManyJobs 1), c1)).
Proof.
  intros hostname workerId o Ho q.
  assert (Hmax : maxJobsInProcess (options q) = 1).
  { unfold q, constructor; simpl.
    destruct o as [g|]; simpl; [rewrite (Ho g eq_refl)|]; reflexivity. }
  clearbody q.
  split.
  - intros t1 t2 t3 c v c1 Hget Hretries s1 s2 s3 f2 Hs.
    destruct (lease_get_shape _ _ _ _ _ _ _ _ _ Hget)
      as [(_ & Hno)|(k & j & Hn & Hc & Hr & ->)];
      [destruct (Hno v eq_refl)|].
    inversion Hr; subst v; clear Hr.
    set (j1 := lease q t3 None j) in *.
    assert (Hin1 : In j1 (Store.replace_at k j1 c)).
    { apply nth_error_In with (n := k).
      apply replace_at_same. apply nth_error_Some; congruence. }
    apply claimable_iff in Hc. destruct Hc as (_ & _ & Hd).
    assert (Hl : leased q s1 j1 = true).
    { apply leased_iff.
      repeat split; auto; apply (Hretries j1 Hin1 eq_refl). }
    pose proof (filter_length_pos _ _ _ Hin1 Hl) as Hpos.
    unfold MongooseQueue.get; simpl. rewrite Hmax.
    replace (Z.of_nat (List.length
               (filter (leased q s1) (Store.replace_at k j1 c))) <? 1)
      with false; auto.
    symmetry; apply Z.ltb_ge; lia.
  - intros t2 t3 c v c1 Hget s2 s3 f2.
    destruct (flag_get_shape _ _ _ _ _ _ _ _ Hget)
      as [(_ & Hno)|(k & j & Hn & Hc & Hr & ->)];
      [destruct (Hno v eq_refl)|].
    set (j1 := lease q t3 (Some true) j) in *.
    assert (Hin1 : In j1 (Store.replace_at k j1 c)).
    { apply nth_error_In with (n := k).
      apply replace_at_same. apply nth_error_Some; congruence. }
    pose proof (filter_length_pos (fun x => process x) _ _ Hin1 eq_refl)
      as Hpos.
    unfold MongooseQueueProcess.get; simpl. rewrite Hmax.
    replace (Z.of_nat (List.length
               (filter (fun x => process x) (Store.replace_at k j1 c))) <? 1)
      with false; auto.
    symmetry; apply Z.ltb_ge; lia.
Qed.

Lemma single_slot_by_default_witness :
  MongooseQueue.get (constructor "host-a" (Some "w1"%string) None)
    1000 1000 1000 None None two_pending
    = (Ok (VJob (view held)), [pending "J2" 20; held]) /\
  MongooseQueue.get (constructor "host-a" (Some "w1"%string) None)
    1001 1001 1001 None None [pending "J2" 20; held]
    = (Err (TooManyJobs 1), [pending "J2" 20; held]).
Proof.
  split; [reflexivity|].
  destruct (single_slot_by_default "host-a"%string (Some "w1"%string) None)
    as [H _]; [discriminate|].
  apply (H 1000 1000 1000 two_pending _ _ eq_refl).
  - intros j [<-|[<-|[]]] Hid; [discriminate Hid | vm_compute; discriminate].
  - vm_compute; reflexivity.
Defined.

(** ** [availableProcesses] against [get] *)

Lemma filter_empty_none (p : Job -> bool) (c : Collection) :
  List.length (filter p c) = 0%nat -> forall j, In j c -> p j = false.
Proof.
  intros H j Hin. destruct (p j) eqn:E; auto.
  pose proof (filter_length_pos p c j Hin E). lia.
Qed.

(** X16: [availableProcesses] and a [get] of the same queue object that read
    the same time for the query agree, when the admission check lets the
    [get] through and no store call fails: [availableProcesses] answers with
    a number exactly when the [get] hands out a job, and with [null] exactly
    when the [get] answers [null]. *)
Theorem availableProcesses_agrees_with_get :
  forall q now t1 t3 c,
    Z.of_nat (List.length (filter (leased q t1) c))
      < maxJobsInProcess (options q) ->
    ((exists k, fst (MongooseQueue.availableProcesses q now None c)
                  = Ok (VNumber k)) <->
     (exists v, fst (MongooseQueue.get q t1 now t3 None None c)
                  = Ok (VJob v))) /\
    (fst (MongooseQueue.availableProcesses q now None c) = Ok VNull <->
     fst (MongooseQueue.get q t1 now t3 None None c) = Ok VNull).
Proof.
  intros q now t1 t3 c Hadm.
  unfold MongooseQueue.availableProcesses; simpl.
  destruct (lease_get_cases q t1 now t3 c)
    as [(Hfull & _)|[(_ & Hnone & E)|(_ & k & j & Hn & Hc & _ & E)]];
    [lia | |]; rewrite E; simpl.
  - rewrite (filter_none _ _ Hnone); simpl.
    split; [split; intros [x Hx]; discriminate | tauto].
  - pose proof (filter_length_pos _ _ _ (nth_error_In _ _ Hn) Hc) as Hpos.
    replace (Z.of_nat (List.length (filter (claimable q now) c)) =? 0)
      with false by (symmetry; apply Z.eqb_neq; lia).
    simpl. split; split; try discriminate; eauto.
Qed.

Lemma availableProcesses_agrees_with_get_witness :
  Z.of_nat (List.length (filter (leased worker 1000) two_pending))
    < maxJobsInProcess (options worker) /\
  fst (MongooseQueue.availableProcesses worker 1000 None two_pending)
    = Ok (VNumber 2) /\
  exists v, fst (MongooseQueue.get worker 1000 1000 1000 None None two_pending)
              = Ok (VJob v).
Proof.
  assert (Hadm : Z.of_nat (List.length (filter (leased worker 1000) two_pending))
                 < maxJobsInProcess (options worker))
    by (vm_compute; reflexivity).
  split; [exact Hadm|]. split; [reflexivity|].
  destruct (availableProcesses_agrees_with_get worker 1000 1000 1000
              two_pending Hadm) as [[H _] _].
  apply H. exists 2. reflexivity.
Defined.

(** ** After a sweep of [recoverProcessTasks] *)

(** X17: after a sweep that did not fail, every document that still has
    [process = true] is done; a second sweep, at whatever time, rewrites
    nothing and reports counts of 0. *)
Theorem recoverProcessTasks_twice :
  forall q now now' c,
    let c1 := snd (MongooseQueueProcess.recoverProcessTasks q now None c) in
    (forall j, In j c1 -> process j = true -> done j = true) /\
    MongooseQueueProcess.recoverProcessTasks q now' None c1
      = (Ok (VRaw {| ok := 1; n := 0; nModified := 0 |}), c1).
Proof.
  intros q now now' c c1.
  assert (Hquiet : forall j, In j c1 -> negb (done j) && process j = false).
  { intros j Hin. unfold c1 in Hin; simpl in Hin.
    apply in_map_iff in Hin. destruct Hin as (x & Hx & _).
    destruct (negb (done x) && process x) eqn:E; subst j; auto.
    simpl. apply andb_false_r. }
  split.
  - intros j Hin Hp. specialize (Hquiet j Hin).
    rewrite Hp, andb_true_r in Hquiet.
    apply negb_false_iff; exact Hquiet.
  - unfold MongooseQueueProcess.recoverProcessTasks, Store.call, Store.update.
    rewrite (filter_none _ _ Hquiet). simpl.
    f_equal. clear - Hquiet.
    induction c1 as [|y c1 IH]; simpl; auto.
    rewrite (Hquiet y) by (simpl; auto).
    f_equal. apply IH. intros; apply Hquiet; simpl; auto.
Qed.

(** ** [reset] *)

(** X18: a [reset] that reports no error leaves the collection empty, and
    one that fails leaves it as it was; on the emptied collection every
    [ack] and [error] fails with the not-found error, [availableProcesses]
    answers [null] and no [get] hands out a job. *)
Theorem reset_empties :
  forall f c r c',
    MongooseQueue.reset f c = (r, c') ->
    (r = Ok VUndefined ->
     c' = [] /\
     (forall jobId,
        fst (MongooseQueue.ack jobId None c') = Err JobNotFound) /\
     (forall jobId msg,
        fst (MongooseQueue.error jobId msg None c') = Err JobNotFound) /\
     (forall q now,
        fst (MongooseQueue.availableProcesses q now None c') = Ok VNull) /\
     (forall q t1 t2 t3 f1 f2 v,
        fst (MongooseQueue.get q t1 t2 t3 f1 f2 c') <> Ok (VJob v)) /\
     (forall q t2 t3 f1 f2 v,
        fst (MongooseQueueProcess.get q t2 t3 f1 f2 c') <> Ok (VJob v))) /\
    (r <> Ok VUndefined -> c' = c /\ exists e, r = Err (StoreError e)).
Proof.
  intros f c r c' H.
  destruct f as [f|].
  - inversion H; subst; clear H.
    split; [discriminate|]. intros _. split; eauto.
  - assert (He : c' = []).
    { replace c' with (snd (MongooseQueue.reset None c))
        by (rewrite H; reflexivity).
      simpl. apply filter_none; auto. }
    assert (Hr : r = Ok VUndefined) by (inversion H; reflexivity).
    subst c' r. clear H.
    split; [|intros Hne; destruct (Hne eq_refl)].
    intros _.
    split; [reflexivity|]. split; [reflexivity|].
    split; [reflexivity|]. split; [reflexivity|].
    split.
    + intros q t1 t2 t3 f1 f2 v E.
      destruct (MongooseQueue.get q t1 t2 t3 f1 f2 []) as [r c'] eqn:Hget.
      destruct (lease_get_shape _ _ _ _ _ _ _ _ _ Hget)
        as [(_ & Hno)|(k & j & Hn & _)].
      * exact (Hno v E).
      * destruct k; discriminate.
    + intros q t2 t3 f1 f2 v E.
      destruct (MongooseQueueProcess.get q t2 t3 f1 f2 []) as [r c'] eqn:Hget.
      destruct (flag_get_shape _ _ _ _ _ _ _ _ Hget)
        as [(_ & Hno)|(k & j & Hn & _)].
      * exact (Hno v E).
      * destruct k; discriminate.
Qed.

Lemma reset_empties_witness :
  MongooseQueue.reset None two_pending = (Ok VUndefined, []) /\
  (forall jobId, fst (MongooseQueue.ack jobId None []) = Err JobNotFound) /\
  MongooseQueue.reset (Some {| fault_err := "down"; fault_arg := Undefined |})
    two_pending = (Err (StoreError "down"), two_pending).
Proof.
  split; [reflexivity|]. split; [|reflexivity].
  destruct (reset_empties None two_pending _ _ eq_refl) as [H _].
  destruct (H eq_refl) as (_ & Hack & _). exact Hack.
Defined.

(** ** [clean] of the flag variant under a running job *)

(** X19: in the flag variant, with unique ids, when [get] hands out a job
    on its last permitted claim ([retries = maxRetries] before the claim),
    a [clean] that follows deletes that job although it is in process, and
    the worker's [ack] of it then fails with the not-found error. *)
Theorem flag_clean_drops_last_claim :
  forall q t2 t3 c v c1,
    NoDup (map _id c) ->
    MongooseQueueProcess.get q t2 t3 None None c = (Ok (VJob v), c1) ->
    (forall j, In j c -> _id j = id v -> retries j = maxRetries (options q)) ->
    let c2 := snd (MongooseQueueProcess.clean q None c1) in
    (forall j, In j c2 -> _id j <> id v) /\
    fst (MongooseQueueProcess.ack (id v) None c2) = Err JobNotFound.
Proof.
  intros q t2 t3 c v c1 Hnd Hget Hlast c2.
  destruct (flag_get_shape _ _ _ _ _ _ _ _ Hget)
    as [(_ & Hno)|(k & j & Hn & _ & Hr & Hc1)];
    [destruct (Hno v eq_refl)|].
  inversion Hr; subst v; clear Hr. simpl in *.
  set (j1 := lease q t3 (Some true) j) in *.
  assert (Hnd1 : NoDup (map _id c1)).
  { subst c1. rewrite (Forall2_ids c); auto.
    apply replace_at_Forall2 with (j := j); auto. }
  assert (Hin1 : In j1 c1).
  { subst c1. apply nth_error_In with (n := k).
    apply replace_at_same. apply nth_error_Some; congruence. }
  assert (Hgone : forall j', In j' c2 -> _id j' <> _id j).
  { intros j' Hin' He. unfold c2 in Hin'; simpl in Hin'.
    apply filter_In in Hin'. destruct Hin' as [Hin' Hkeep].
    assert (j' = j1) by (apply (nodup_id_inj c1); auto).
    subst j'. unfold j1 in Hkeep; simpl in Hkeep.
    rewrite (Hlast j (nth_error_In _ _ Hn) eq_refl) in Hkeep.
    replace (maxRetries (options q) <? maxRetries (options q) + 1)
      with true in Hkeep by (symmetry; apply Z.ltb_lt; lia).
    rewrite orb_true_r in Hkeep. discriminate. }
  split; [exact Hgone|].
  apply find_first_id_none in Hgone.
  unfold MongooseQueueProcess.ack, Common.ack, Store.call,
    Store.findOneAndUpdate.
  rewrite Hgone. reflexivity.
Qed.

Lemma flag_clean_drops_last_claim_witness :
  (NoDup (map _id [pending "J1" 10]) /\
   forall j, In j [pending "J1" 10] -> _id j = "J1"%string ->
             retries j = maxRetries (options strict)) /\
  MongooseQueueProcess.get strict 1000 1000 None None [pending "J1" 10]
    = (Ok (VJob (view (lease strict 1000 (Some true) (pending "J1" 10)))),
       [lease strict 1000 (Some true) (pending "J1" 10)]) /\
  fst (MongooseQueueProcess.ack "J1" None
         (snd (MongooseQueueProcess.clean strict None
                 [lease strict 1000 (Some true) (pending "J1" 10)])))
    = Err JobNotFound.
Proof.
  assert (Hnd : NoDup (map _id [pending "J1" 10])).
  { simpl. repeat constructor. intros []. }
  assert (Hlast : forall j, In j [pending "J1" 10] -> _id j = "J1"%string ->
                            retries j = maxRetries (options strict)).
  { intros j [<-|[]] _. reflexivity. }
  split; [split; auto|]. split; [reflexivity|].
  destruct (flag_clean_drops_last_claim strict 1000 1000 [pending "J1" 10]
              _ _ Hnd eq_refl Hlast) as [_ H].
  exact H.
Defined.

(** ** The [error] field *)

(** X20: only [error] writes the [error] field: [get] of either variant,
    [ack] and [recoverProcessTasks] leave the [error] field of every
    document as it is, and an [error] call that succeeds leaves the
    collection with a document of that id that is done and carries the
    message, which is also the message handed back. *)
Theorem error_message_kept :
  (forall q t1 t2 t3 f1 f2 c,
     Forall2 (fun j j' => error j' = error j) c
       (snd (MongooseQueue.get q t1 t2 t3 f1 f2 c))) /\
  (forall q t2 t3 f1 f2 c,
     Forall2 (fun j j' => error j' = error j) c
       (snd (MongooseQueueProcess.get q t2 t3 f1 f2 c))) /\
  (forall jobId f c,
     Forall2 (fun j j' => error j' = error j) c
       (snd (MongooseQueue.ack jobId f c))) /\
  (forall q now f c,
     Forall2 (fun j j' => error j' = error j) c
       (snd (MongooseQueueProcess.recoverProcessTasks q now f c))) /\
  (forall jobId msg f c w e c',
     MongooseQueue.error jobId msg f c = (Ok (VFailedJob w e), c') ->
     e = Some msg /\ id w = jobId /\ view_done w = true /\
     exists j, In j c' /\ _id j = jobId /\ done j = true /\
               error j = Some msg).
Proof.
  repeat match goal with |- _ /\ _ => split end.
  - intros. apply lease_get_Forall2; auto.
  - intros. apply flag_get_Forall2; auto.
  - intros. apply ack_Forall2; auto.
  - intros. apply recover_Forall2; auto.
  - intros jobId msg f c w e c' H.
    unfold MongooseQueue.error, Common.error in H.
    destruct f as [f|]; simpl in H; [discriminate|].
    destruct (Store.findOneAndUpdate _ _ _ c) as [o c1] eqn:Hf.
    destruct (findOneAndUpdate_positions _ _ _ _ _ _ Hf)
      as [(-> & ->)|(k & j & Hn & Hc & -> & ->)]; [discriminate|].
    inversion H; subst; clear H. simpl.
    apply String.eqb_eq in Hc.
    repeat split; auto.
    exists (set_done_error msg j). repeat split; auto.
    apply nth_error_In with (n := k).
    apply replace_at_same. apply nth_error_Some; congruence.
Qed.

Lemma error_message_kept_witness :
  MongooseQueue.error "J1" "boom" None two_pending
    = (Ok (VFailedJob (view (set_done (pending "J1" 10)))
             (Some "boom"%string)),
       [pending "J2" 20; set_done_error "boom" (pending "J1" 10)]) /\
  exists j,
    In j [pending "J2" 20; set_done_error "boom" (pending "J1" 10)] /\
    _id j = "J1"%string /\ done j = true /\ error j = Some "boom"%string.
Proof.
  split; [reflexivity|].
  destruct error_message_kept as (_ & _ & _ & _ & H).
  destruct (H "J1"%string "boom"%string None two_pending _ _ _ eq_refl)
    as (_ & _ & _ & Hj).
  exact Hj.
Defined.
